(** * Zone-based intrusion decision engine: a shallow embedding

    The development follows the Python sources
    [src/geometry_utils.py], [src/zone_manager.py],
    [src/intrusion_detector.py] and [src/zone_marker.py].

    Numbers.  Python [int] is [Z].  Floating-point values are IEEE 754
    binary floats ([spec_float] of the standard library, with its
    correctly rounded operations): the clock readings and the alarm
    times are binary64 (Python [float]), the coordinates of a detection
    are binary32 (the NumPy scalars the detector returns).  [int(x)] is
    truncation toward zero and raises on NaN and on the infinities.
    The numbers given to [add_zone] are kept by their exact value [Q].

    External code.  [cv2.pointPolygonTest], the person detector, the
    [json] codec and the file system are not part of the repository;
    they appear as an interface ([OpenCV]), as inputs ([results]) and as
    an explicit file-system state ([filesystem]). *)

From Stdlib Require Import ZArith QArith Lia Lqa List SpecFloat.
From stdpp Require Import base option list gmap strings.

Import ListNotations.
Set Warnings "-register-all".
Local Open Scope Z_scope.

(** ** Floating-point numbers *)

Module Float.

(** A binary format: the precision and the exponent of the infinities. *)
Record format : Type := Format {
  prec : Z;
  emax : Z
}.

Definition binary32 : format := Format 24 128.
Definition binary64 : format := Format 53 1024.

Definition t : Type := spec_float.

(** The float of the format nearest to [m * 2 ^ e] (ties to even). *)
Definition dyadic (fmt : format) (m e : Z) : t :=
  binary_normalize (prec fmt) (emax fmt) m e false.

(** A Python [int] converted to the format. *)
Definition of_Z (fmt : format) (n : Z) : t := dyadic fmt n 0.

Definition f32 (m e : Z) : t := dyadic binary32 m e.
Definition f64 (m e : Z) : t := dyadic binary64 m e.

Definition add (fmt : format) (x y : t) : t := SFadd (prec fmt) (emax fmt) x y.
Definition sub (fmt : format) (x y : t) : t := SFsub (prec fmt) (emax fmt) x y.
Definition div (fmt : format) (x y : t) : t := SFdiv (prec fmt) (emax fmt) x y.

(** [x <= y] and [x == y]; both are false when an operand is NaN. *)
Definition leb (x y : t) : bool := SFleb x y.
Definition eqb (x y : t) : bool := SFeqb x y.

(** The value of a finite float ([0] for the others). *)
Definition value (x : t) : Q :=
  match x with
  | S754_finite s m e =>
      ((if s then inject_Z (Zneg m) else inject_Z (Zpos m)) * 2 ^ e)%Q
  | _ => 0%Q
  end.

End Float.

(** ** Python values, exceptions and results *)

Module Py.

(** The values [json.load] can return and [json.dump] can write. *)
Inductive value : Type :=
| VNone
| VBool (b : bool)
| VInt (n : Z)
| VFloat (q : Q)
| VStr (s : string)          (* the UTF-8 bytes of the text *)
| VList (l : list value)
| VDict (d : gmap string value).

(** The exceptions raised by the modelled statements. *)
Inductive exn : Type :=
| OSError            (* [IOError] is an alias of [OSError] *)
| JSONDecodeError    (* subclass of [ValueError] *)
| UnicodeDecodeError (* subclass of [ValueError], not of [JSONDecodeError] *)
| AttributeError
| TypeError
| ValueError         (* raised as such, by [int] on NaN *)
| OverflowError.

Inductive result (A : Type) : Type :=
| Ok (a : A)
| Raise (e : exn).
Arguments Ok {A} a.
Arguments Raise {A} e.

Definition bind {A B} (r : result A) (k : A -> result B) : result B :=
  match r with
  | Ok a => k a
  | Raise e => Raise e
  end.

(** [try: body except (E1, ..): handler] for a handler that cannot raise. *)
Definition try_except {A} (body : result A) (caught : exn -> bool)
    (handler : A) : result A :=
  match body with
  | Ok a => Ok a
  | Raise e => if caught e then Ok handler else Raise e
  end.

(** What a call returned, where it is known not to raise. *)
Definition returned {A} (dflt : A) (r : result A) : A :=
  match r with
  | Ok a => a
  | Raise _ => dflt
  end.

Definition is_ok {A} (r : result A) : bool :=
  match r with
  | Ok _ => true
  | Raise _ => false
  end.

(** [int(x)] for a number [x] given by its value: truncation toward zero. *)
Definition int (x : Q) : Z := Z.quot (Qnum x) (Zpos (Qden x)).

(** [int(x)] for a float [x]. *)
Definition int_float (x : Float.t) : result Z :=
  match x with
  | S754_nan => Raise ValueError
  | S754_infinity _ => Raise OverflowError
  | S754_zero _ | S754_finite _ _ _ => Ok (int (Float.value x))
  end.

(** Truth value of an [Optional[float]]: [None] and the zeros are false
    (NaN is true). *)
Definition truthy (o : option Float.t) : bool :=
  match o with
  | None => false
  | Some t => negb (Float.eqb t (S754_zero false))
  end.

(** The number of code points of a text held as its UTF-8 bytes: the
    bytes that are not continuation bytes ([10xxxxxx]). *)
Fixpoint code_points (s : string) : nat :=
  match s with
  | EmptyString => 0%nat
  | String (Ascii.Ascii _ _ _ _ _ _ b6 b7) rest =>
      ((if b7 && negb b6 then 0 else 1) + code_points rest)%nat
  end.

(** [len(v)]; a [VStr] holds the UTF-8 bytes of the text. *)
Definition len (v : value) : result Z :=
  match v with
  | VList l => Ok (Z.of_nat (length l))
  | VStr s => Ok (Z.of_nat (code_points s))
  | VDict d => Ok (Z.of_nat (size d))
  | _ => Raise TypeError
  end.

(** [v.append(x)]: only lists have the method. *)
Definition append (v x : value) : result value :=
  match v with
  | VList l => Ok (VList (l ++ [x]))
  | _ => Raise AttributeError
  end.

(** [v.get(key, default)]: only dicts have the method. *)
Definition get (v : value) (key : string) (dflt : value) : result value :=
  match v with
  | VDict d => Ok (default dflt (d !! key))
  | _ => Raise AttributeError
  end.

End Py.

(** ** [geometry_utils.py] *)

Definition point : Type := (Z * Z)%type.
Definition polygon : Type := list point.

(** The one OpenCV entry point the code calls,
    [cv2.pointPolygonTest(contour, pt, measureDist)].  With
    [measureDist = False] OpenCV documents the result as [+1] (inside),
    [0] (on an edge) or [-1] (outside); the code only compares it with 0. *)
Class OpenCV : Type := {
  pointPolygonTest : polygon -> point -> bool -> Z
}.

(** A zone as stored in the registry: [{'id': .., 'points': [[x, y], ..]}]. *)
Record zone : Type := Zone {
  zone_id : Z;
  zone_points : polygon
}.

(** A bounding box [(x1, y1, x2, y2)] of floats. *)
Definition bbox : Type := (Float.t * Float.t * Float.t * Float.t)%type.

Section geometry_utils.
Context `{cv2 : OpenCV}.

Definition point_in_polygon (p : point) (poly : polygon) : bool :=
  let result := pointPolygonTest poly p false in
  result >=? 0.

(** [fmt] is the format of the coordinates: the sum and the quotient
    are computed in it, the [int] 2 being converted to it. *)
Definition bbox_center (fmt : Float.format) (b : bbox) : Py.result point :=
  let '(x1, y1, x2, y2) := b in
  Py.bind (Py.int_float (Float.div fmt (Float.add fmt x1 x2) (Float.of_Z fmt 2)))
    (fun center_x =>
  Py.bind (Py.int_float (Float.div fmt (Float.add fmt y1 y2) (Float.of_Z fmt 2)))
    (fun center_y =>
  Py.Ok (center_x, center_y))).

(** The [for zone in zones] loop, one iteration and the whole loop;
    the accumulator is [intersecting_zones]. *)
Definition check_person_in_zones_step (center : point)
    (intersecting_zones : list Z) (z : zone) : list Z :=
  if point_in_polygon center (zone_points z)
  then intersecting_zones ++ [zone_id z]
  else intersecting_zones.

Definition check_person_in_zones (center : point) (zones : list zone) : list Z :=
  fold_left (check_person_in_zones_step center) zones [].

End geometry_utils.

(** ** [zone_manager.py] *)

(** What [open(path, 'r', encoding='utf-8')] followed by [json.load]
    does on an existing file. *)
Inductive file : Type :=
| NoAccess            (* [open] raises [OSError]: permissions, a directory *)
| NotUtf8             (* the bytes are not UTF-8: reading raises [UnicodeDecodeError] *)
| NotJson             (* the text is not JSON: [json.load] raises [JSONDecodeError] *)
| Json (v : Py.value) (* the text is the JSON serialisation of [v] *).

(** The file system: the existing files, by the file a path names (two
    paths that name one file are one key); the paths on which writing
    raises [OSError] ([denied]); and those of them on which the error
    comes only after [open(path, 'w')] has emptied the file ([torn]: the
    device fills up while the text is written), the others failing in
    [open] itself. *)
Record filesystem : Type := FileSystem {
  files : gmap string file;
  denied : gset string;
  torn : gset string
}.

(** The dict [{'id': zone_id, 'points': [[x, y], ..]}] of a zone. *)
Definition point_value (p : point) : Py.value :=
  Py.VList [Py.VInt (fst p); Py.VInt (snd p)].

Definition zone_value (z : zone) : Py.value :=
  Py.VDict (<["id" := Py.VInt (zone_id z)]>
           (<["points" := Py.VList (map point_value (zone_points z))]> ∅)).

Module ZoneManager.

Record t : Type := Make {
  json_path : string;
  zones : Py.value
}.

Definition set_zones (self : t) (v : Py.value) : t :=
  {| json_path := json_path self; zones := v |}.

(** [with open(..) as f: data = json.load(f)] *)
Definition open_json_load (f : file) : Py.result Py.value :=
  match f with
  | NoAccess => Py.Raise Py.OSError
  | NotUtf8 => Py.Raise Py.UnicodeDecodeError
  | NotJson => Py.Raise Py.JSONDecodeError
  | Json v => Py.Ok v
  end.

(** [except (json.JSONDecodeError, IOError)] *)
Definition caught (e : Py.exn) : bool :=
  match e with
  | Py.JSONDecodeError | Py.OSError => true
  | _ => false
  end.

Definition load_zones (fs : filesystem) (self : t) : Py.result t :=
  match files fs !! json_path self with
  | Some f =>
      Py.try_except
        (Py.bind (open_json_load f) (fun data =>
         Py.bind (Py.get data "zones" (Py.VList [])) (fun zs =>
         Py.Ok (set_zones self zs))))
        caught
        (set_zones self (Py.VList []))
  | None => Py.Ok self
  end.

Definition __init__ (fs : filesystem) (json_path : string) : Py.result t :=
  load_zones fs {| json_path := json_path; zones := Py.VList [] |}.

Definition add_zone (self : t) (points : list (Q * Q)) (zone_id : option Z)
    : Py.result t :=
  Py.bind (match zone_id with
           | None => Py.bind (Py.len (zones self)) (fun n => Py.Ok (n + 1))
           | Some i => Py.Ok i
           end) (fun zone_id =>
  let zone :=
    zone_value (Zone zone_id (map (fun '(x, y) => (Py.int x, Py.int y)) points)) in
  Py.bind (Py.append (zones self) zone) (fun zs =>
  Py.Ok (set_zones self zs))).

(** Returns the success flag and the file system after the call.  A
    write that fails after [open] leaves an incomplete text, which is
    not JSON. *)
Definition save_zones (fs : filesystem) (self : t) : bool * filesystem :=
  let data := Py.VDict (<["zones" := zones self]> ∅) in
  if decide (json_path self ∈ denied fs)
  then (false,
        if decide (json_path self ∈ torn fs)
        then {| files := <[json_path self := NotJson]> (files fs);
                denied := denied fs; torn := torn fs |}
        else fs)
  else (true, {| files := <[json_path self := Json data]> (files fs);
                 denied := denied fs; torn := torn fs |}).

Definition get_zones (self : t) : Py.value := zones self.

Definition clear_zones (self : t) : t := set_zones self (Py.VList []).

End ZoneManager.

(** ** [intrusion_detector.py] *)

Module AlarmState.

(** The times are Python floats (binary64). *)
Record t : Type := Make {
  active : bool;
  deactivate_time : option Float.t;
  deactivate_delay : Float.t
}.

Definition __init__ : t :=
  {| active := false; deactivate_time := None;
     deactivate_delay := Float.f64 3 0 |}.

Definition activate (self : t) : t :=
  {| active := true;
     deactivate_time := None;
     deactivate_delay := deactivate_delay self |}.

(** [current_time >= self.deactivate_time], evaluated only when the
    time stamp is truthy. *)
Definition reached (current_time : Float.t) (o : option Float.t) : bool :=
  match o with
  | Some t => Float.leb t current_time
  | None => false
  end.

Definition check_deactivate (self : t) (current_time : Float.t) : t :=
  let self1 :=
    if active self && negb (Py.truthy (deactivate_time self))
    then {| active := active self;
            deactivate_time :=
              Some (Float.add Float.binary64 current_time (deactivate_delay self));
            deactivate_delay := deactivate_delay self |}
    else self in
  if Py.truthy (deactivate_time self1) && reached current_time (deactivate_time self1)
  then {| active := false;
          deactivate_time := None;
          deactivate_delay := deactivate_delay self1 |}
  else self1.

Definition reset (self : t) : t :=
  {| active := false;
     deactivate_time := None;
     deactivate_delay := deactivate_delay self |}.

End AlarmState.

(** The conversions to [int] that the loop body of [process_frame]
    makes on a box: for the centre and for the corners. *)
Definition conversions_return (b : bbox) : bool :=
  let '(x1, y1, x2, y2) := b in
  Py.is_ok (bbox_center Float.binary32 b)
  && Py.is_ok (Py.int_float x1) && Py.is_ok (Py.int_float y1)
  && Py.is_ok (Py.int_float x2) && Py.is_ok (Py.int_float y2).

(** One detection: [box.xyxy[0]] (binary32 coordinates) and
    [box.conf[0]].  The detections are those on which none of the
    conversions to [int] raises: finite coordinates whose sums stay in
    range. *)
Record box : Type := Box {
  xyxy : bbox;
  conf : Q;
  xyxy_finite : conversions_return xyxy = true
}.

(** [bbox_center((x1, y1, x2, y2))] and [int(x)] on a detection. *)
Definition center (b : box) : point :=
  Py.returned (0, 0) (bbox_center Float.binary32 (xyxy b)).

Definition px (x : Float.t) : Z := Py.returned 0 (Py.int_float x).

Module IntrusionDetector.
Section process_frame.
Context `{cv2 : OpenCV}.

(** Body of [for box in boxes], as far as [has_intrusion] goes
    (the drawing calls do not touch it). *)
Definition box_step (zones : list zone) (has_intrusion : bool) (b : box) : bool :=
  let center := center b in
  let intersecting_zones := check_person_in_zones center zones in
  match intersecting_zones with
  | [] => has_intrusion
  | _ :: _ => true
  end.

(** The nested loops of [process_frame] (lines 92-115); [results] is
    what the detector returned for the frame, one box list per result. *)
Definition has_intrusion (zones : list zone) (results : list (list box)) : bool :=
  fold_left (fun acc boxes => fold_left (box_step zones) boxes acc) results false.

(** Lines 117-120: the alarm update for one frame. *)
Definition update (alarm_state : AlarmState.t) (intrusion : bool)
    (current_time : Float.t) : AlarmState.t :=
  if intrusion
  then AlarmState.activate alarm_state
  else AlarmState.check_deactivate alarm_state current_time.

Definition process_frame (zones : list zone) (alarm_state : AlarmState.t)
    (results : list (list box)) (current_time : Float.t) : AlarmState.t :=
  update alarm_state (has_intrusion zones results) current_time.

End process_frame.

(** The alarm state after a sequence of per-frame updates. *)
Definition run (s : AlarmState.t) (frames : list (bool * Float.t))
    : AlarmState.t :=
  fold_left (fun s '(intrusion, now) => update s intrusion now) frames s.

End IntrusionDetector.

(** ** [intrusion_detector.py]: the frame and the video loop

    A frame is the decoded image (its shape) together with the drawing
    calls made on it so far, oldest first.  The texts are kept by the
    arguments of their f-strings. *)

Definition bgr : Type := (Z * Z * Z)%type.

Inductive text : Type :=
| PersonZone (zone : Z)             (* [f"Person (Zone {intersecting_zones[0]})"] *)
| PersonConfidence (confidence : Q) (* [f"Person {confidence:.2f}"] *)
| ZoneName (zone : Z)               (* [f"Zone {zone['id']}"] *)
| AlarmText                         (* ["ALARM!"] *)
| StatusText (frame_count total_frames : Z) (alarm_on : bool).

Inductive draw : Type :=
| rectangle (pt1 pt2 : point) (color : bgr) (thickness : Z)
| putText (t : text) (org : point) (fontScale : Q) (color : bgr) (thickness : Z)
| circle (center : point) (radius : Z) (color : bgr) (thickness : Z)
| fillPoly_blend (pts : polygon) (color : bgr) (alpha : Q)
    (* [overlay = frame.copy(); fillPoly(overlay, [pts], color);
        addWeighted(overlay, alpha, frame, 1 - alpha, 0, frame)] *)
| polylines (pts : polygon) (isClosed : bool) (color : bgr) (thickness : Z).

Record frame : Type := Frame {
  rows : Z;
  cols : Z;
  drawn : list draw
}.

Definition paint (f : frame) (d : draw) : frame :=
  {| rows := rows f; cols := cols f; drawn := drawn f ++ [d] |}.

(** [cv2.getTextSize(text, font, fontScale, thickness)]: the size of the
    text and its baseline. *)
Class OpenCVText : Type := {
  getTextSize : text -> Q -> Z -> (Z * Z) * Z
}.

(** What one iteration of the video loop reads from outside: the frame
    [cap.read()] returned, the detector's [results] for it, the clock
    [time.time()] and the key [cv2.waitKey(1)] (read only with the
    preview on). *)
Record shot : Type := Shot {
  image : frame;
  results : list (list box);
  clock : Float.t;
  key : Z
}.

Record capture : Type := Capture {
  isOpened : bool;
  total_frames : Z;
  shots : list shot
}.

(** What the loop leaves behind: the alarm state, [frame_count], the
    frames given to [writer.write] and those given to [cv2.imshow]. *)
Record outcome : Type := Outcome {
  alarm_state : AlarmState.t;
  frame_count : Z;
  written : list frame;
  shown : list frame
}.

Module Video.
Section video.
Context `{cv2 : OpenCV} `{cv2text : OpenCVText}.

Definition draw_zone (f : frame) (z : zone) : frame :=
  let points := zone_points z in
  if (3 <=? length points)%nat
  then
    let f := paint f (fillPoly_blend points (0, 0, 255) 0.3%Q) in
    let f := paint f (polylines points true (0, 0, 255) 2) in
    match points with
    | p0 :: _ => paint f (putText (ZoneName (zone_id z)) p0 0.6%Q (255, 255, 255) 2)
    | [] => f
    end
  else f.

Definition draw_zones (zones : list zone) (f : frame) : frame :=
  fold_left draw_zone zones f.

Definition draw_alarm (alarm : AlarmState.t) (f : frame) : frame :=
  if AlarmState.active alarm
  then
    let h := rows f in
    let w := cols f in
    let '((text_width, text_height), baseline) := getTextSize AlarmText 2%Q 4 in
    let x := (w - text_width) / 2 in
    let y := (h + text_height) / 2 in
    let f := paint f (putText AlarmText (x, y) 2%Q (0, 0, 255) 4) in
    paint f (rectangle (x - 10, y - text_height - 10)
                       (x + text_width + 10, y + baseline + 10)
                       (0, 0, 255) 3)
  else f.

(** The body of [for box in boxes]: the drawing and [has_intrusion]. *)
Definition box_body (zones : list zone) (acc : frame * bool) (b : box)
    : frame * bool :=
  let '(f, has_intrusion) := acc in
  let '(x1, y1, x2, y2) := xyxy b in
  let confidence := conf b in
  let center := center b in
  let intersecting_zones := check_person_in_zones center zones in
  let '(has_intrusion, color, label) :=
    match intersecting_zones with
    | z0 :: _ => (true, (0, 0, 255), PersonZone z0)
    | [] => (has_intrusion, (0, 255, 0), PersonConfidence confidence)
    end in
  let f := paint f (rectangle (px x1, px y1) (px x2, px y2) color 2) in
  let f := paint f (putText label (px x1, px y1 - 10) 0.5%Q color 2) in
  let f := paint f (circle center 5 color (-1)) in
  (f, has_intrusion).

Definition process_frame (zones : list zone) (alarm : AlarmState.t) (f : frame)
    (results : list (list box)) (current_time : Float.t) : frame * AlarmState.t :=
  let '(f, has_intrusion) :=
    fold_left (fun acc boxes => fold_left (box_body zones) boxes acc)
              results (f, false) in
  (f, IntrusionDetector.update alarm has_intrusion current_time).

(** Truth value of [output_path]: [None] and the empty string are false. *)
Definition has_output (output_path : option string) : bool :=
  match output_path with
  | Some s => negb (String.eqb s "")
  | None => false
  end.

(** The [while True] loop of [run], from the state [st] on. *)
Fixpoint run_loop (zones : list zone) (start_time : Float.t) (total : Z)
    (writer show_preview : bool) (rest : list shot) (st : outcome) : outcome :=
  match rest with
  | [] => st
  | sh :: rest =>
      let current_time := Float.sub Float.binary64 (clock sh) start_time in
      let '(f, alarm) :=
        process_frame zones (alarm_state st) (image sh) (results sh) current_time in
      let f := draw_zones zones f in
      let f := draw_alarm alarm f in
      let f := paint f (putText (StatusText (frame_count st) total
                                   (AlarmState.active alarm))
                                (10, 30) 0.7%Q (255, 255, 255) 2) in
      let shown' := if show_preview then shown st ++ [f] else shown st in
      if show_preview && (Z.land (key sh) 255 =? 113)
      then {| alarm_state := alarm; frame_count := frame_count st;
              written := written st; shown := shown' |}
      else run_loop zones start_time total writer show_preview rest
             {| alarm_state := alarm;
                frame_count := frame_count st + 1;
                written := if writer then written st ++ [f] else written st;
                shown := shown' |}
  end.

Definition run (zones : list zone) (alarm : AlarmState.t) (cap : capture)
    (start_time : Float.t) (output_path : option string) (show_preview : bool)
    : outcome :=
  let st := {| alarm_state := alarm; frame_count := 0; written := []; shown := [] |} in
  if negb (isOpened cap) then st
  else run_loop zones start_time (total_frames cap) (has_output output_path)
         show_preview (shots cap) st.

End video.
End Video.

(** ** [zone_marker.py]

    The drawing ([_redraw_frame], [_draw_instructions], [imshow]) is
    left out: it changes nothing of the marker.  It reads the first
    point of every zone of the registry, so it raises on a zone without
    points; the properties below are stated for registries whose zones
    all have points. *)

Inductive mouse_event : Type :=
| EVENT_LBUTTONDOWN
| EVENT_MOUSEMOVE
| EVENT_LBUTTONUP
| EVENT_OTHER.

(** What reaches the marker from the window: a mouse event, given to
    [mouse_callback], or the end of one iteration of the loop, with the
    value of [cv2.waitKey(1)] and whether a [cap.read()] made in that
    iteration returns a frame. *)
Inductive gui_event : Type :=
| Mouse (event : mouse_event) (x y : Z)
| Key (waitKey : Z) (ret : bool).

Module ZoneMarker.

Record t : Type := Make {
  zone_manager : ZoneManager.t;
  current_points : list point;
  current_zone_id : Z;
  drawing : bool
}.

Definition __init__ (fs : filesystem) (json_path : string) : Py.result t :=
  Py.bind (ZoneManager.__init__ fs json_path) (fun zm =>
  Py.bind (Py.len (ZoneManager.get_zones zm)) (fun n =>
  Py.Ok {| zone_manager := zm; current_points := [];
           current_zone_id := n + 1; drawing := false |})).

Definition mouse_callback (self : t) (event : mouse_event) (x y : Z) : t :=
  match event with
  | EVENT_LBUTTONDOWN =>
      {| zone_manager := zone_manager self;
         current_points := current_points self ++ [(x, y)];
         current_zone_id := current_zone_id self;
         drawing := true |}
  | EVENT_LBUTTONUP =>
      {| zone_manager := zone_manager self;
         current_points := current_points self;
         current_zone_id := current_zone_id self;
         drawing := false |}
  | EVENT_MOUSEMOVE | EVENT_OTHER => self
  end.

(** [self.zone_manager.add_zone(self.current_points, self.current_zone_id);
     self.current_points = []; self.current_zone_id += 1] *)
Definition commit (self : t) : Py.result t :=
  Py.bind (ZoneManager.add_zone (zone_manager self)
             (map (fun '(x, y) => (inject_Z x, inject_Z y)) (current_points self))
             (Some (current_zone_id self))) (fun zm =>
  Py.Ok {| zone_manager := zm; current_points := [];
           current_zone_id := current_zone_id self + 1;
           drawing := drawing self |}).

(** The state of the loop of [run]: the marker, the file system, the
    local [frame_number] and whether the loop is still running. *)
Record loop : Type := Loop {
  self : t;
  disk : filesystem;
  frame_number : Z;
  running : bool
}.

(** The branches on [key = cv2.waitKey(1) & 0xFF]. *)
Definition on_key (st : loop) (waitKey : Z) (ret : bool) : Py.result loop :=
  let key := Z.land waitKey 255 in
  if (key =? 113) || (key =? 27) then
    Py.Ok {| self := self st; disk := disk st;
             frame_number := frame_number st; running := false |}
  else if key =? 115 then
    Py.bind (if (3 <=? length (current_points (self st)))%nat
             then commit (self st) else Py.Ok (self st)) (fun m =>
    Py.Ok {| self := m;
             disk := snd (ZoneManager.save_zones (disk st) (zone_manager m));
             frame_number := frame_number st; running := false |})
  else if key =? 32 then
    Py.bind (if (3 <=? length (current_points (self st)))%nat
             then commit (self st) else Py.Ok (self st)) (fun m =>
    Py.Ok {| self := m; disk := disk st;
             frame_number := if ret then frame_number st + 1 else frame_number st;
             running := true |})
  else if key =? 98 then
    Py.Ok {| self := self st; disk := disk st;
             frame_number := if (0 <? frame_number st) && ret
                             then frame_number st - 1 else frame_number st;
             running := true |}
  else if key =? 99 then
    Py.Ok {| self := {| zone_manager := zone_manager (self st);
                        current_points := [];
                        current_zone_id := current_zone_id (self st);
                        drawing := drawing (self st) |};
             disk := disk st; frame_number := frame_number st; running := true |}
  else if key =? 13 then
    Py.bind (if (3 <=? length (current_points (self st)))%nat
             then commit (self st) else Py.Ok (self st)) (fun m =>
    Py.Ok {| self := m; disk := disk st;
             frame_number := frame_number st; running := true |})
  else Py.Ok st.

Definition step (st : loop) (ev : gui_event) : Py.result loop :=
  if running st then
    match ev with
    | Mouse event x y =>
        Py.Ok {| self := mouse_callback (self st) event x y; disk := disk st;
                 frame_number := frame_number st; running := true |}
    | Key waitKey ret => on_key st waitKey ret
    end
  else Py.Ok st.

Fixpoint steps (st : loop) (events : list gui_event) : Py.result loop :=
  match events with
  | [] => Py.Ok st
  | ev :: events => Py.bind (step st ev) (fun st' => steps st' events)
  end.

(** [run]: nothing happens unless the video opens and its first frame
    is read. *)
Definition run (m : t) (fs : filesystem) (opened first_frame : bool)
    (events : list gui_event) : Py.result loop :=
  if opened && first_frame
  then steps {| self := m; disk := fs; frame_number := 0; running := true |} events
  else Py.Ok {| self := m; disk := fs; frame_number := 0; running := false |}.

End ZoneMarker.

(** ** An executable instance of the OpenCV interface

    Used to run the embedding on concrete polygons: a point on an edge
    gives [0]; otherwise the parity of the number of edges crossed by
    the horizontal ray to the right of the point decides between [1]
    and [-1]. *)

Module CrossingTest.

Definition cross (a b p : point) : Z :=
  (fst b - fst a) * (snd p - snd a) - (snd b - snd a) * (fst p - fst a).

Definition on_segment (p : point) (e : point * point) : bool :=
  let '(a, b) := e in
  (cross a b p =? 0)
  && (Z.min (fst a) (fst b) <=? fst p) && (fst p <=? Z.max (fst a) (fst b))
  && (Z.min (snd a) (snd b) <=? snd p) && (snd p <=? Z.max (snd a) (snd b)).

Definition crosses (p : point) (e : point * point) : bool :=
  let '(a, b) := e in
  ((snd a <=? snd p) && (snd p <? snd b) && (0 <? cross a b p))
  || ((snd b <=? snd p) && (snd p <? snd a) && (cross a b p <? 0)).

(** The edges of the closed polygon, the last vertex joined to the first. *)
Definition edges (poly : polygon) : list (point * point) :=
  match poly with
  | [] => []
  | v0 :: rest => combine poly (rest ++ [v0])
  end.

Definition test (poly : polygon) (p : point) (measureDist : bool) : Z :=
  if existsb (on_segment p) (edges poly) then 0
  else if Nat.odd (length (List.filter (crosses p) (edges poly))) then 1
  else -1.

Definition cv2 : OpenCV := {| pointPolygonTest := test |}.

End CrossingTest.

(** An instance of the text interface: every text is 200 by 40 pixels
    with a baseline of 10. *)
Definition fixed_text_size : OpenCVText :=
  {| getTextSize := fun _ _ _ => ((200, 40), 10) |}.

(** ** Specification-side definitions *)

(** [zones_containing] as the specification words it: the ids of the
    zones whose polygon contains the point, in registry order. *)
Definition zones_containing `{cv2 : OpenCV} (p : point) (zones : list zone)
    : list Z :=
  map zone_id (List.filter (fun z => point_in_polygon p (zone_points z)) zones).

(** The frame intrusion result: the set of ids of the zones that contain
    the representative point of at least one detection. *)
Definition violated_zones `{cv2 : OpenCV} (zones : list zone)
    (results : list (list box)) : gset Z :=
  list_to_set
    (flat_map (fun b => zones_containing (center b) zones)
              (concat results)).

(** A detection is an intruder when its centre lies in some zone. *)
Definition intruder `{cv2 : OpenCV} (zones : list zone) (b : box) : bool :=
  existsb (fun z => point_in_polygon (center b) (zone_points z)) zones.

(** [z] is [q] truncated toward zero. *)
Definition truncation_of (q : Q) (z : Z) : Prop :=
  ((0 <= q -> inject_Z z <= q /\ q < inject_Z z + 1) /\
   (q <= 0 -> inject_Z z - 1 < q /\ q <= inject_Z z))%Q.

(** The alarm invariant: an inactive alarm carries no time stamp. *)
Definition alarm_inv (s : AlarmState.t) : Prop :=
  AlarmState.active s = false -> AlarmState.deactivate_time s = None.

(** States the alarm can be in: the initial one closed under the
    three operations. *)
Inductive alarm_reachable : AlarmState.t -> Prop :=
| reach_init : alarm_reachable AlarmState.__init__
| reach_activate s :
    alarm_reachable s -> alarm_reachable (AlarmState.activate s)
| reach_check s now :
    alarm_reachable s -> alarm_reachable (AlarmState.check_deactivate s now)
| reach_reset s :
    alarm_reachable s -> alarm_reachable (AlarmState.reset s).

(** A registry built by successive [add_zone] calls. *)
Fixpoint add_zones (m : ZoneManager.t) (adds : list (list (Q * Q) * option Z))
    : Py.result ZoneManager.t :=
  match adds with
  | [] => Py.Ok m
  | (points, zone_id) :: rest =>
      Py.bind (ZoneManager.add_zone m points zone_id) (fun m' => add_zones m' rest)
  end.

(** The typed zones a sequence of [add_zone] calls appends to a registry
    that holds [n] zones: the id is the one supplied, else the count plus
    one; the coordinates are truncated to integers. *)
Fixpoint zones_of_adds (n : nat) (adds : list (list (Q * Q) * option Z))
    : list zone :=
  match adds with
  | [] => []
  | (points, zone_id) :: rest =>
      Zone (default (Z.of_nat n + 1) zone_id)
           (map (fun '(x, y) => (Py.int x, Py.int y)) points)
      :: zones_of_adds (S n) rest
  end.


(** *** For the frame and the video loop *)

Definition paint_all (f : frame) (ds : list draw) : frame :=
  {| rows := rows f; cols := cols f; drawn := drawn f ++ ds |}.

(** The first zone, in registry order, that contains the point. *)
Definition first_zone_containing `{cv2 : OpenCV} (p : point) (zones : list zone)
    : option zone :=
  List.find (fun z => point_in_polygon p (zone_points z)) zones.

(** What is drawn for one detection: the box, its label and a dot on
    the representative point; red with the first containing zone as the
    label when there is one, green with the confidence otherwise. *)
Definition detection_draws `{cv2 : OpenCV} (zones : list zone) (b : box)
    : list draw :=
  let '(x1, y1, x2, y2) := xyxy b in
  let center := center b in
  let '(color, label) :=
    match first_zone_containing center zones with
    | Some z => ((0, 0, 255), PersonZone (zone_id z))
    | None => ((0, 255, 0), PersonConfidence (conf b))
    end in
  [ rectangle (px x1, px y1) (px x2, px y2) color 2;
    putText label (px x1, px y1 - 10) 0.5%Q color 2;
    circle center 5 color (-1) ].

(** What is drawn for one zone that is drawn at all. *)
Definition zone_draws (z : zone) : list draw :=
  [ fillPoly_blend (zone_points z) (0, 0, 255) 0.3%Q;
    polylines (zone_points z) true (0, 0, 255) 2;
    putText (ZoneName (zone_id z)) (hd (0, 0) (zone_points z)) 0.6%Q
            (255, 255, 255) 2 ].

Definition drawable (z : zone) : bool := (3 <=? length (zone_points z))%nat.

(** The key that stops the loop: [waitKey(1) & 0xFF == ord('q')]. *)
Definition quits (sh : shot) : bool := Z.land (key sh) 255 =? 113.

(** The shots before the first one that quits, and that one if any. *)
Fixpoint until_quit (l : list shot) : list shot * option shot :=
  match l with
  | [] => ([], None)
  | sh :: rest =>
      if quits sh then ([], Some sh)
      else let '(before, q) := until_quit rest in (sh :: before, q)
  end.

(** The shots that are counted and the shot that stops the loop: only
    with the preview on are the keys read. *)
Definition counted_and_last (show_preview : bool) (l : list shot)
    : list shot * option shot :=
  if show_preview then until_quit l else (l, None).

(** The alarm inputs of a list of shots. *)
Definition alarm_inputs `{cv2 : OpenCV} (zones : list zone) (start_time : Float.t)
    (l : list shot) : list (bool * Float.t) :=
  map (fun sh => (IntrusionDetector.has_intrusion zones (results sh),
                  Float.sub Float.binary64 (clock sh) start_time)) l.

(** *** For the zone marker *)

(** The registry of the marker [m] is the typed registry [zs0] followed
    by zones the marker added: each with at least three points, with the
    consecutive ids [id0], [id0 + 1], ...; the next id follows them. *)
Definition marker_extends (zs0 : list zone) (id0 : Z) (m : ZoneMarker.t) : Prop :=
  exists new,
    ZoneManager.zones (ZoneMarker.zone_manager m)
    = Py.VList (map zone_value (zs0 ++ new))
    /\ Forall (fun z => (3 <= length (zone_points z))%nat) new
    /\ map zone_id new = seqZ id0 (Z.of_nat (length new))
    /\ ZoneMarker.current_zone_id m = id0 + Z.of_nat (length new).

(** The key codes, modulo 256, that end the marker's loop. *)
Definition stops (ev : gui_event) : bool :=
  match ev with
  | Key waitKey _ =>
      let key := Z.land waitKey 255 in
      (key =? 113) || (key =? 27) || (key =? 115)
  | Mouse _ _ _ => false
  end.

Definition saves (ev : gui_event) : bool :=
  match ev with
  | Key waitKey _ => Z.land waitKey 255 =? 115
  | Mouse _ _ _ => false
  end.

(** Clicking the points one after the other: press, drag, release. *)
Definition clicks (pts : list point) : list gui_event :=
  flat_map (fun '(x, y) => [ Mouse EVENT_LBUTTONDOWN x y;
                             Mouse EVENT_MOUSEMOVE x y;
                             Mouse EVENT_LBUTTONUP x y ]) pts.

(** ** Geometry *)

Lemma bbox_center_center (b : box) :
  bbox_center Float.binary32 (xyxy b) = Py.Ok (center b).
Proof.
  destruct b as [b c H]. unfold center. cbn [xyxy].
  unfold conversions_return in H. destruct b as [[[x1 y1] x2] y2].
  destruct (bbox_center Float.binary32 (x1, y1, x2, y2)); [done|].
  discriminate H.
Qed.

Lemma int_float_px (b : box) :
  let '(x1, y1, x2, y2) := xyxy b in
  Py.int_float x1 = Py.Ok (px x1) /\ Py.int_float y1 = Py.Ok (px y1)
  /\ Py.int_float x2 = Py.Ok (px x2) /\ Py.int_float y2 = Py.Ok (px y2).
Proof.
  destruct b as [b c H]. cbn [xyxy]. unfold conversions_return in H.
  destruct b as [[[x1 y1] x2] y2]. unfold px.
  destruct (Py.int_float x1), (Py.int_float y1), (Py.int_float x2),
    (Py.int_float y2); try done;
    rewrite ?andb_false_r in H; discriminate H.
Qed.

Section geometry_facts.
Context `{cv2 : OpenCV}.

Lemma check_person_in_zones_acc (center : point) (zones : list zone) (acc : list Z) :
  fold_left (check_person_in_zones_step center) zones acc
  = acc ++ zones_containing center zones.
Proof.
  revert acc. induction zones as [|z zones IH]; intros acc; cbn.
  - by rewrite app_nil_r.
  - rewrite IH. unfold check_person_in_zones_step, zones_containing. cbn.
    destruct (point_in_polygon center (zone_points z)); cbn; [|done].
    by rewrite <- app_assoc.
Qed.

Lemma check_person_in_zones_eq (center : point) (zones : list zone) :
  check_person_in_zones center zones = zones_containing center zones.
Proof. apply check_person_in_zones_acc. Qed.

Lemma elem_of_zones_containing (center : point) (zones : list zone) (i : Z) :
  i ∈ zones_containing center zones
  <-> exists z, z ∈ zones /\ zone_id z = i
                /\ point_in_polygon center (zone_points z) = true.
Proof.
  unfold zones_containing. rewrite list_elem_of_In, in_map_iff. split.
  - intros (z & Hid & Hin). apply filter_In in Hin as [Hin Hp].
    exists z. by rewrite list_elem_of_In.
  - intros (z & Hin & Hid & Hp). exists z. split; [done|].
    apply filter_In. by rewrite <- list_elem_of_In.
Qed.

End geometry_facts.

Section aggregation_facts.
Context `{cv2 : OpenCV}.

Lemma zones_containing_nil_iff (p : point) (zones : list zone) :
  zones_containing p zones = []
  <-> existsb (fun z => point_in_polygon p (zone_points z)) zones = false.
Proof.
  unfold zones_containing. induction zones as [|z zones IH]; cbn; [done|].
  destruct (point_in_polygon p (zone_points z)); cbn; [|exact IH].
  split; discriminate.
Qed.

Lemma box_step_eq (zones : list zone) (acc : bool) (b : box) :
  IntrusionDetector.box_step zones acc b = acc || intruder zones b.
Proof.
  unfold IntrusionDetector.box_step, intruder.
  rewrite check_person_in_zones_eq.
  destruct (zones_containing _ zones) eqn:E.
  - apply zones_containing_nil_iff in E. rewrite E. by rewrite orb_false_r.
  - destruct (existsb _ zones) eqn:E'; [by rewrite orb_true_r|].
    apply zones_containing_nil_iff in E'. congruence.
Qed.

Lemma boxes_loop_eq (zones : list zone) (boxes : list box) (acc : bool) :
  fold_left (IntrusionDetector.box_step zones) boxes acc
  = acc || existsb (intruder zones) boxes.
Proof.
  revert acc. induction boxes as [|b boxes IH]; intros acc; cbn.
  - by rewrite orb_false_r.
  - by rewrite IH, box_step_eq, orb_assoc.
Qed.

Lemma results_loop_eq (zones : list zone) (results : list (list box)) (acc : bool) :
  fold_left (fun acc boxes => fold_left (IntrusionDetector.box_step zones) boxes acc)
            results acc
  = acc || existsb (intruder zones) (concat results).
Proof.
  revert acc. induction results as [|boxes results IH]; intros acc; cbn.
  - by rewrite orb_false_r.
  - by rewrite IH, boxes_loop_eq, existsb_app, orb_assoc.
Qed.

Lemma has_intrusion_existsb (zones : list zone) (results : list (list box)) :
  IntrusionDetector.has_intrusion zones results
  = existsb (intruder zones) (concat results).
Proof. unfold IntrusionDetector.has_intrusion. by rewrite results_loop_eq. Qed.

Lemma list_to_set_empty_iff (l : list Z) : list_to_set l = (∅ : gset Z) <-> l = [].
Proof.
  destruct l as [|x l]; cbn; [done|]. split; [|done].
  intros E. exfalso. assert (x ∈ (∅ : gset Z)) as Hx by (rewrite <- E; set_solver).
  set_solver.
Qed.

Lemma violated_zones_empty_iff (zones : list zone) (results : list (list box)) :
  violated_zones zones results = ∅
  <-> existsb (intruder zones) (concat results) = false.
Proof.
  unfold violated_zones. rewrite list_to_set_empty_iff.
  induction (concat results) as [|b bs IH]; cbn; [done|].
  rewrite app_nil, IH, orb_false_iff. unfold intruder at 2.
  by rewrite zones_containing_nil_iff.
Qed.

End aggregation_facts.

Lemma elem_of_violated_zones `{cv2 : OpenCV} (zones : list zone)
    (results : list (list box)) (i : Z) :
  i ∈ violated_zones zones results
  <-> exists boxes b z,
        boxes ∈ results /\ b ∈ boxes /\ z ∈ zones /\ zone_id z = i
        /\ point_in_polygon (center b) (zone_points z) = true.
Proof.
  unfold violated_zones.
  rewrite elem_of_list_to_set, list_elem_of_In, in_flat_map. split.
  - intros (b & Hb & Hi). apply in_concat in Hb as (boxes & Hboxes & Hb).
    apply list_elem_of_In, elem_of_zones_containing in Hi as (z & Hz & Hid & Hp).
    exists boxes, b, z. apply list_elem_of_In in Hboxes, Hb. done.
  - intros (boxes & b & z & Hboxes & Hb & Hz & Hid & Hp).
    exists b. split.
    + apply in_concat. exists boxes. apply list_elem_of_In in Hboxes, Hb. done.
    + apply list_elem_of_In, elem_of_zones_containing. by exists z.
Qed.

(** C4.  For one frame, [has_intrusion] is true exactly when some
    detection's bounding-box centre (the point [bbox_center] returns
    for its box) is contained in some zone of the registry;
    equivalently, exactly when the set of violated zone ids (the union,
    over the detections, of the zones containing the detection's
    centre) is not empty. *)
Theorem has_intrusion_iff_some_detection_in_some_zone `{cv2 : OpenCV}
    (zones : list zone) (results : list (list box)) :
  (IntrusionDetector.has_intrusion zones results = true
   <-> exists boxes b z c,
         boxes ∈ results /\ b ∈ boxes /\ z ∈ zones
         /\ bbox_center Float.binary32 (xyxy b) = Py.Ok c
         /\ point_in_polygon c (zone_points z) = true)
  /\ (IntrusionDetector.has_intrusion zones results = true
      <-> violated_zones zones results <> ∅)
  /\ (forall alarm_state now,
        IntrusionDetector.process_frame zones alarm_state results now
        = IntrusionDetector.update alarm_state
            (bool_decide (violated_zones zones results <> ∅)) now).
Proof.
  assert (IntrusionDetector.has_intrusion zones results = true
          <-> violated_zones zones results <> ∅) as Hset.
  { rewrite has_intrusion_existsb, violated_zones_empty_iff.
    by destruct (existsb _ _). }
  split; [|split; [exact Hset|]].
  - rewrite Hset. split.
    + intros Hne. destruct (set_choose_L _ Hne) as [i Hi].
      apply elem_of_violated_zones in Hi as (boxes & b & z & ? & ? & ? & ? & ?).
      exists boxes, b, z, (center b). by rewrite bbox_center_center.
    + intros (boxes & b & z & c & ? & ? & ? & Hc & ?) E.
      rewrite bbox_center_center in Hc. injection Hc as <-.
      assert (zone_id z ∈ violated_zones zones results) as Hi.
      { apply elem_of_violated_zones. by exists boxes, b, z. }
      rewrite E in Hi. set_solver.
  - intros alarm_state now. unfold IntrusionDetector.process_frame. f_equal.
    destruct (IntrusionDetector.has_intrusion zones results) eqn:E.
    + symmetry. apply bool_decide_eq_true. by apply Hset.
    + symmetry. apply bool_decide_eq_false. intros Hne.
      apply Hset in Hne. congruence.
Qed.

(** What the code itself adds to [cv2.pointPolygonTest]: the
    comparison with zero.  [point_in_polygon] is true exactly when the
    signed result is non-negative.  Which points OpenCV gives which sign
    is decided inside OpenCV, outside the repository. *)
Lemma point_in_polygon_iff_sign_nonnegative `{cv2 : OpenCV}
    (p : point) (poly : polygon) :
  (point_in_polygon p poly = true <-> 0 <= pointPolygonTest poly p false)
  /\ (point_in_polygon p poly = false <-> pointPolygonTest poly p false < 0).
Proof.
  unfold point_in_polygon. cbv zeta.
  destruct (Z.geb_spec (pointPolygonTest poly p false) 0) as [Hge|Hlt].
  - split; split; intros; try done; lia.
  - split; split; intros; try done; lia.
Qed.

(** C6.  [check_person_in_zones] returns exactly the ids of the zones
    whose polygon contains the point, in registry order: every matching
    zone contributes its id (not only the first match) and no other id
    appears. *)
Theorem check_person_in_zones_all_matches_in_order `{cv2 : OpenCV}
    (center : point) (zones : list zone) :
  check_person_in_zones center zones = zones_containing center zones
  /\ (forall i, i ∈ check_person_in_zones center zones
                <-> exists z, z ∈ zones /\ zone_id z = i
                     /\ point_in_polygon center (zone_points z) = true)
  /\ (forall before z after, zones = before ++ z :: after ->
        check_person_in_zones center zones
        = check_person_in_zones center before
          ++ (if point_in_polygon center (zone_points z) then [zone_id z] else [])
          ++ check_person_in_zones center after).
Proof.
  split; [apply check_person_in_zones_eq|split].
  - intros i. rewrite check_person_in_zones_eq. apply elem_of_zones_containing.
  - intros before z after ->. rewrite !check_person_in_zones_eq.
    unfold zones_containing. rewrite List.filter_app, map_app. cbn.
    by destruct (point_in_polygon center (zone_points z)).
Qed.

(** A point in two overlapping zones and outside a third one. *)
Example check_person_in_zones_overlap :
  @check_person_in_zones CrossingTest.cv2 (7, 7)
    [ Zone 4 [(0, 0); (10, 0); (10, 10); (0, 10)];
      Zone 9 [(20, 20); (30, 20); (30, 30)];
      Zone 2 [(5, 5); (15, 5); (15, 15); (5, 15)] ]
  = [4; 2].
Proof. reflexivity. Qed.

Lemma int_truncation (q : Q) : truncation_of q (Py.int q).
Proof.
  destruct q as [n d].
  unfold truncation_of, Py.int, Qle, Qlt, Qplus, Qminus, Qopp, inject_Z.
  cbn [Qnum Qden].
  pose proof (Z.quot_rem' n (Zpos d)) as E.
  split; intros H.
  - assert (0 <= n) as Hn by lia.
    pose proof (Z.rem_bound_pos n (Zpos d) Hn ltac:(lia)). lia.
  - assert (n <= 0) as Hn by lia.
    pose proof (Z.rem_bound_pos_neg n (Zpos d) ltac:(lia) Hn).
    cbn [Qnum Qden Qplus Qopp]. lia.
Qed.

Lemma inject_Z_lt_succ (a b : Z) : (inject_Z a < inject_Z b + 1)%Q -> a <= b.
Proof. unfold Qlt, Qplus, inject_Z. cbn. lia. Qed.

(** [truncation_of] determines the integer. *)
Lemma truncation_of_unique (q : Q) (z1 z2 : Z) :
  truncation_of q z1 -> truncation_of q z2 -> z1 = z2.
Proof.
  intros [Hp1 Hn1] [Hp2 Hn2].
  destruct (Qlt_le_dec q 0) as [Hq|Hq].
  - destruct (Hn1 ltac:(lra)), (Hn2 ltac:(lra)).
    assert (z1 <= z2) by (apply inject_Z_lt_succ; lra).
    assert (z2 <= z1) by (apply inject_Z_lt_succ; lra). lia.
  - destruct (Hp1 Hq), (Hp2 Hq).
    assert (z1 <= z2) by (apply inject_Z_lt_succ; lra).
    assert (z2 <= z1) by (apply inject_Z_lt_succ; lra). lia.
Qed.

Example int_examples :
  Py.int 5.5 = 5 /\ Py.int (-5.5) = -5 /\ Py.int 7 = 7 /\ Py.int (-0.25) = 0.
Proof. repeat split. Qed.

(** [int] on a float that is not NaN or infinite is the truncation
    toward zero of its value. *)
Lemma int_float_truncation (x : Float.t) (z : Z) :
  Py.int_float x = Py.Ok z -> truncation_of (Float.value x) z.
Proof.
  destruct x as [s|s| |s m e]; cbn [Py.int_float]; try discriminate;
    intros [= <-]; apply int_truncation.
Qed.

Lemma int_float_raises (x : Float.t) :
  (forall z, Py.int_float x <> Py.Ok z)
  <-> x = S754_nan \/ exists s, x = S754_infinity s.
Proof.
  destruct x as [s|s| |s m e]; cbn [Py.int_float]; split;
    try (intros H; by destruct (H _ eq_refl));
    try (intros [H|[s' H]]; discriminate H);
    try (intros _ z; discriminate); eauto.
Qed.

(** C7, as the code has it.  [bbox_center] adds and halves in the
    floating-point format of the coordinates and truncates the result
    toward zero: when it returns, each coordinate is the truncation
    toward zero (not the rounding, not the floor) of the float
    [(x1 + x2) / 2], resp. [(y1 + y2) / 2]; it raises exactly when one
    of these two floats is NaN or infinite.  In binary32 and in
    binary64 the box (0,0,10,11) gives (5,5) and the box (-11,-11,0,0)
    gives (-5,-5). *)
Theorem bbox_center_truncates_float_centroid (fmt : Float.format)
    (x1 y1 x2 y2 : Float.t) :
  let mx := Float.div fmt (Float.add fmt x1 x2) (Float.of_Z fmt 2) in
  let my := Float.div fmt (Float.add fmt y1 y2) (Float.of_Z fmt 2) in
  (forall cx cy,
     bbox_center fmt (x1, y1, x2, y2) = Py.Ok (cx, cy) ->
     truncation_of (Float.value mx) cx /\ truncation_of (Float.value my) cy)
  /\ ((forall c, bbox_center fmt (x1, y1, x2, y2) <> Py.Ok c)
      <-> (mx = S754_nan \/ exists s, mx = S754_infinity s)
          \/ (my = S754_nan \/ exists s, my = S754_infinity s))
  /\ bbox_center Float.binary32
       (Float.f32 0 0, Float.f32 0 0, Float.f32 10 0, Float.f32 11 0)
     = Py.Ok (5, 5)
  /\ bbox_center Float.binary64
       (Float.f64 0 0, Float.f64 0 0, Float.f64 10 0, Float.f64 11 0)
     = Py.Ok (5, 5)
  /\ bbox_center Float.binary32
       (Float.f32 (-11) 0, Float.f32 (-11) 0, Float.f32 0 0, Float.f32 0 0)
     = Py.Ok (-5, -5).
Proof.
  cbv zeta. unfold bbox_center.
  set (mx := Float.div fmt (Float.add fmt x1 x2) (Float.of_Z fmt 2)).
  set (my := Float.div fmt (Float.add fmt y1 y2) (Float.of_Z fmt 2)).
  split; [|split; [|split; [|split]]]; try reflexivity.
  - intros cx cy H.
    destruct (Py.int_float mx) as [zx|ex] eqn:Ex; [|discriminate H].
    destruct (Py.int_float my) as [zy|ey] eqn:Ey; [|discriminate H].
    cbn in H. injection H as <- <-.
    split; by apply int_float_truncation.
  - rewrite <- !int_float_raises.
    destruct (Py.int_float mx) as [zx|ex] eqn:Ex;
      destruct (Py.int_float my) as [zy|ey] eqn:Ey; cbn [Py.bind]; split.
    + intros H. by destruct (H (zx, zy)).
    + intros [H|H]; [by destruct (H zx)|by destruct (H zy)].
    + intros _. right. intros z. discriminate.
    + intros _ c. discriminate.
    + intros _. left. intros z. discriminate.
    + intros _ c. discriminate.
    + intros _. left. intros z. discriminate.
    + intros _ c. discriminate.
Qed.

(** C7, as stated, fails.  In binary32 take x1 = 640 - 2^-14 (the
    float just below 640) and x2 = 640, so x1 <= x2: the exact centroid
    is below 640 and its truncation is 639, but the float sum rounds to
    1280 and [bbox_center] returns 640.  The same happens in binary64
    with x1 = 640 - 2^-43. *)
Lemma bbox_center_differs_from_truncated_exact_centroid :
  let x1 := Float.f32 (640 * 2 ^ 14 - 1) (-14) in
  let x2 := Float.f32 640 0 in
  let u1 := Float.f64 (640 * 2 ^ 43 - 1) (-43) in
  let u2 := Float.f64 640 0 in
  (Float.leb x1 x2 = true
   /\ bbox_center Float.binary32 (x1, Float.f32 0 0, x2, Float.f32 0 0)
      = Py.Ok (640, 0)
   /\ Py.int ((Float.value x1 + Float.value x2) / 2) = 639)
  /\ (Float.leb u1 u2 = true
      /\ bbox_center Float.binary64 (u1, Float.f64 0 0, u2, Float.f64 0 0)
         = Py.Ok (640, 0)
      /\ Py.int ((Float.value u1 + Float.value u2) / 2) = 639).
Proof. cbv zeta. repeat split; vm_compute; reflexivity. Qed.

(** ** The alarm state machine *)

Lemma activate_state (s : AlarmState.t) :
  AlarmState.activate s
  = AlarmState.Make true None (AlarmState.deactivate_delay s).
Proof. reflexivity. Qed.

Lemma check_deactivate_inactive (s : AlarmState.t) (now : Float.t) :
  AlarmState.active s = false -> AlarmState.deactivate_time s = None ->
  AlarmState.check_deactivate s now = s.
Proof.
  destruct s as [a o d]. cbn. intros -> ->. reflexivity.
Qed.

Lemma alarm_inv_init : alarm_inv AlarmState.__init__.
Proof. intros _. reflexivity. Qed.

Lemma alarm_inv_activate (s : AlarmState.t) : alarm_inv (AlarmState.activate s).
Proof. intros H. discriminate H. Qed.

Lemma alarm_inv_reset (s : AlarmState.t) : alarm_inv (AlarmState.reset s).
Proof. intros _. reflexivity. Qed.

Lemma alarm_inv_check_deactivate (s : AlarmState.t) (now : Float.t) :
  alarm_inv s -> alarm_inv (AlarmState.check_deactivate s now).
Proof.
  destruct s as [a o d]. unfold alarm_inv, AlarmState.check_deactivate. cbn.
  intros Hinv.
  destruct a; cbn.
  - destruct (negb (Py.truthy o)); cbn;
      match goal with
      | |- context [if ?c then _ else _] => destruct c; cbn; done
      end.
  - rewrite (Hinv eq_refl). cbn. done.
Qed.

Lemma alarm_inv_update (s : AlarmState.t) (intrusion : bool) (now : Float.t) :
  alarm_inv s -> alarm_inv (IntrusionDetector.update s intrusion now).
Proof.
  destruct intrusion; cbn; intros H.
  - apply alarm_inv_activate.
  - by apply alarm_inv_check_deactivate.
Qed.

Lemma run_snoc (s : AlarmState.t) (frames : list (bool * Float.t))
    (intrusion : bool) (now : Float.t) :
  IntrusionDetector.run s (frames ++ [(intrusion, now)])
  = IntrusionDetector.update (IntrusionDetector.run s frames) intrusion now.
Proof. unfold IntrusionDetector.run. by rewrite fold_left_app. Qed.

(** C3.  An inactive alarm never carries a pending-deactivation time
    stamp: the invariant holds initially, is preserved by [activate],
    by [check_deactivate] at any time and by [reset], and therefore
    holds in every state the operations can reach and after every
    sequence of frame updates. *)
Theorem inactive_alarm_has_no_timestamp :
  alarm_inv AlarmState.__init__
  /\ (forall s, alarm_inv s -> alarm_inv (AlarmState.activate s))
  /\ (forall s now, alarm_inv s -> alarm_inv (AlarmState.check_deactivate s now))
  /\ (forall s, alarm_inv s -> alarm_inv (AlarmState.reset s))
  /\ (forall s, alarm_reachable s -> alarm_inv s)
  /\ (forall frames, alarm_inv (IntrusionDetector.run AlarmState.__init__ frames)).
Proof.
  split; [apply alarm_inv_init|].
  split; [intros s _; apply alarm_inv_activate|].
  split; [apply alarm_inv_check_deactivate|].
  split; [intros s _; apply alarm_inv_reset|].
  split.
  - intros s Hs. induction Hs.
    + apply alarm_inv_init.
    + apply alarm_inv_activate.
    + by apply alarm_inv_check_deactivate.
    + apply alarm_inv_reset.
  - intros frames. induction frames as [|[intrusion now] frames IH] using rev_ind.
    + apply alarm_inv_init.
    + rewrite run_snoc. by apply alarm_inv_update.
Qed.

(** C2.  Right after an update that reports an intrusion the alarm is
    active and has no pending deactivation, whatever the state before
    (so a pending deactivation is cancelled) and whatever sequence of
    updates came earlier; at every position of a sequence of updates
    that reports an intrusion the state after that update is active. *)
Theorem intrusion_update_activates_and_cancels :
  (forall s now,
     IntrusionDetector.update s true now
     = AlarmState.Make true None (AlarmState.deactivate_delay s))
  /\ (forall s t now,
        AlarmState.deactivate_time s = Some t ->
        AlarmState.deactivate_time (IntrusionDetector.update s true now) = None)
  /\ (forall s0 frames now,
        let s := IntrusionDetector.run s0 (frames ++ [(true, now)]) in
        AlarmState.active s = true /\ AlarmState.deactivate_time s = None)
  /\ (forall s0 frames i now,
        frames !! i = Some (true, now) ->
        let s := IntrusionDetector.run s0 (take (S i) frames) in
        AlarmState.active s = true /\ AlarmState.deactivate_time s = None).
Proof.
  split; [reflexivity|]. split; [reflexivity|]. split.
  - intros s0 frames now. cbv zeta. by rewrite run_snoc.
  - intros s0 frames i now Hi. cbv zeta.
    rewrite (take_S_r _ _ _ Hi), run_snoc. done.
Qed.

(** *** [check_deactivate] on an active alarm

    The comparisons and the sum are those of the code: the deadline is
    the binary64 sum of the time and the delay. *)

(** No time stamp, or a time stamp that is zero (read as "none"): one
    is scheduled at the float sum [now + delay]; the alarm stays on
    unless that sum is already reached (it is then switched off at
    once, which happens where the sum rounds to [now]). *)
Lemma check_deactivate_schedules (s : AlarmState.t) (now : Float.t) :
  AlarmState.active s = true ->
  Py.truthy (AlarmState.deactivate_time s) = false ->
  AlarmState.check_deactivate s now
  = let d := Float.add Float.binary64 now (AlarmState.deactivate_delay s) in
    if Py.truthy (Some d) && Float.leb d now
    then AlarmState.Make false None (AlarmState.deactivate_delay s)
    else AlarmState.Make true (Some d) (AlarmState.deactivate_delay s).
Proof.
  destruct s as [a o d]. cbn [AlarmState.active AlarmState.deactivate_time
    AlarmState.deactivate_delay]. intros -> Ho.
  unfold AlarmState.check_deactivate.
  cbn [AlarmState.active AlarmState.deactivate_time AlarmState.deactivate_delay].
  rewrite Ho. cbn [andb negb AlarmState.deactivate_time AlarmState.deactivate_delay
    AlarmState.reached AlarmState.active]. cbv zeta.
  by destruct (Py.truthy (Some _) && Float.leb _ now).
Qed.

(** A non-zero time stamp that is due: the alarm is switched off. *)
Lemma check_deactivate_due (s : AlarmState.t) (t now : Float.t) :
  AlarmState.active s = true -> AlarmState.deactivate_time s = Some t ->
  Py.truthy (Some t) = true -> Float.leb t now = true ->
  AlarmState.check_deactivate s now
  = AlarmState.Make false None (AlarmState.deactivate_delay s).
Proof.
  destruct s as [a o d]. cbn [AlarmState.active AlarmState.deactivate_time
    AlarmState.deactivate_delay]. intros -> -> Ht Hle.
  unfold AlarmState.check_deactivate.
  cbn [AlarmState.active AlarmState.deactivate_time AlarmState.deactivate_delay].
  rewrite Ht.
  cbn [andb negb AlarmState.deactivate_time AlarmState.deactivate_delay
       AlarmState.reached].
  by rewrite Ht, Hle.
Qed.

(** A non-zero time stamp that is not yet due: nothing changes. *)
Lemma check_deactivate_pending (s : AlarmState.t) (t now : Float.t) :
  AlarmState.active s = true -> AlarmState.deactivate_time s = Some t ->
  Py.truthy (Some t) = true -> Float.leb t now = false ->
  AlarmState.check_deactivate s now = s.
Proof.
  destruct s as [a o d]. cbn [AlarmState.active AlarmState.deactivate_time
    AlarmState.deactivate_delay]. intros -> -> Ht Hlt.
  unfold AlarmState.check_deactivate.
  cbn [AlarmState.active AlarmState.deactivate_time AlarmState.deactivate_delay].
  rewrite Ht.
  cbn [andb negb AlarmState.deactivate_time AlarmState.deactivate_delay
       AlarmState.reached].
  by rewrite Ht, Hlt.
Qed.

(** The delay is the constant 3.0 in every reachable state. *)
Lemma reachable_delay (s : AlarmState.t) :
  alarm_reachable s -> AlarmState.deactivate_delay s = Float.f64 3 0.
Proof.
  induction 1 as [|s _ IH|s now _ IH|s _ IH]; cbn; try done.
  unfold AlarmState.check_deactivate.
  repeat match goal with
         | |- context [if ?c then _ else _] => destruct c
         end; cbn; done.
Qed.

(** C1.  The run [activate; check_deactivate(-3.0); check_deactivate(0.0)]
    with non-decreasing times: after the second call the alarm is active
    with a deactivation scheduled at 0.0; at the third call that time
    stamp is due (0.0 >= 0.0), yet the alarm stays active and a new
    deactivation is scheduled at 3.0. *)
Theorem check_deactivate_ignores_zero_timestamp :
  let s1 := IntrusionDetector.run AlarmState.__init__
              [(true, Float.f64 (-3) 0); (false, Float.f64 (-3) 0)] in
  let s2 := IntrusionDetector.update s1 false (Float.f64 0 0) in
  s1 = AlarmState.Make true (Some (Float.f64 0 0)) (Float.f64 3 0)
  /\ AlarmState.reached (Float.f64 0 0) (AlarmState.deactivate_time s1) = true
  /\ s2 = AlarmState.Make true (Some (Float.f64 3 0)) (Float.f64 3 0).
Proof. cbv zeta. split; [reflexivity|]. split; reflexivity. Qed.

(** The scenarios of the specification, from the initial state. *)
Example alarm_scenario_deactivates :
  IntrusionDetector.run AlarmState.__init__
    [(true, Float.f64 0 0); (false, Float.f64 1 0)]
  = AlarmState.Make true (Some (Float.f64 4 0)) (Float.f64 3 0)
  /\ IntrusionDetector.run AlarmState.__init__
       [(true, Float.f64 0 0); (false, Float.f64 1 0); (false, Float.f64 4 0)]
     = AlarmState.Make false None (Float.f64 3 0).
Proof. split; reflexivity. Qed.

Example alarm_scenario_cancelled :
  IntrusionDetector.run AlarmState.__init__
    [(true, Float.f64 0 0); (false, Float.f64 1 0); (true, Float.f64 2 0);
     (false, Float.f64 4 0)]
  = AlarmState.Make true (Some (Float.f64 7 0)) (Float.f64 3 0).
Proof. reflexivity. Qed.

Example reset_pending :
  AlarmState.reset (AlarmState.Make true (Some (Float.f64 4 0)) (Float.f64 3 0))
  = AlarmState.Make false None (Float.f64 3 0).
Proof. reflexivity. Qed.

(** Where the sum rounds to the time itself the alarm goes off in the
    very update that schedules the deactivation: 2^55 + 3.0 is 2^55. *)
Example alarm_off_at_once_where_sum_rounds :
  IntrusionDetector.run AlarmState.__init__
    [(true, Float.f64 1 55); (false, Float.f64 1 55)]
  = AlarmState.Make false None (Float.f64 3 0).
Proof. reflexivity. Qed.

(** ** The zone registry *)

Lemma load_zones_missing (fs : filesystem) (m : ZoneManager.t) :
  files fs !! ZoneManager.json_path m = None ->
  ZoneManager.load_zones fs m = Py.Ok m.
Proof. unfold ZoneManager.load_zones. by intros ->. Qed.

Lemma init_missing (fs : filesystem) (path : string) :
  files fs !! path = None ->
  ZoneManager.__init__ fs path = Py.Ok (ZoneManager.Make path (Py.VList [])).
Proof. intros H. unfold ZoneManager.__init__. by rewrite load_zones_missing. Qed.

Lemma init_existing (fs : filesystem) (path : string) (f : file) :
  files fs !! path = Some f ->
  ZoneManager.__init__ fs path
  = match f with
    | NoAccess | NotJson => Py.Ok (ZoneManager.Make path (Py.VList []))
    | NotUtf8 => Py.Raise Py.UnicodeDecodeError
    | Json (Py.VDict d) =>
        Py.Ok (ZoneManager.Make path (default (Py.VList []) (d !! "zones")))
    | Json _ => Py.Raise Py.AttributeError
    end.
Proof.
  intros H. unfold ZoneManager.__init__, ZoneManager.load_zones.
  cbn [ZoneManager.json_path]. rewrite H.
  destruct f as [| | |v]; try reflexivity. by destruct v.
Qed.

(** The cases of a failed load that the handler covers. *)
Lemma init_silent_degrade (fs : filesystem) (path : string) :
  files fs !! path = None \/ files fs !! path = Some NoAccess
  \/ files fs !! path = Some NotJson ->
  ZoneManager.__init__ fs path = Py.Ok (ZoneManager.Make path (Py.VList [])).
Proof.
  intros [H|[H|H]]; [by apply init_missing| |];
    by rewrite (init_existing _ _ _ H).
Qed.

(** C8.  Two zone files on which the load raises instead of yielding an
    empty registry: a file whose bytes are not UTF-8 ([UnicodeDecodeError]
    is not caught by the handler), and a file holding the JSON text
    [[]], whose top level is not an object ([data.get] raises
    [AttributeError], not caught either). *)
Theorem load_raises_on_undecodable_or_non_object_file :
  ZoneManager.__init__
    (FileSystem {[ "restricted_zones.json" := NotUtf8 ]} ∅ ∅)
    "restricted_zones.json"
  = Py.Raise Py.UnicodeDecodeError
  /\ ZoneManager.__init__
       (FileSystem {[ "restricted_zones.json" := Json (Py.VList []) ]} ∅ ∅)
       "restricted_zones.json"
     = Py.Raise Py.AttributeError.
Proof.
  split.
  - rewrite (init_existing _ _ NotUtf8); [done|]. apply lookup_singleton_eq.
  - rewrite (init_existing _ _ (Json (Py.VList []))); [done|].
    apply lookup_singleton_eq.
Qed.

(** C10.  Loading a file that holds a JSON object: without a ["zones"]
    key the registry is empty and nothing is raised; with the key, the
    value stored under it becomes the registry as it is, whatever it is. *)
Theorem load_object_defaults_missing_zones_key (fs : filesystem) (path : string)
    (d : gmap string Py.value) :
  files fs !! path = Some (Json (Py.VDict d)) ->
  (d !! "zones" = None ->
     ZoneManager.__init__ fs path = Py.Ok (ZoneManager.Make path (Py.VList [])))
  /\ (forall v, d !! "zones" = Some v ->
        ZoneManager.__init__ fs path = Py.Ok (ZoneManager.Make path v)).
Proof.
  intros H. rewrite (init_existing _ _ _ H).
  split; [by intros ->|]. by intros v ->.
Qed.

(** A file [{"version": 1}] gives the empty registry; a file
    [{"zones": 5}] gives the registry [5]. *)
Lemma load_object_defaults_missing_zones_key_witness :
  ZoneManager.__init__
    (FileSystem {[ "z.json" := Json (Py.VDict {[ "version" := Py.VInt 1 ]}) ]} ∅ ∅)
    "z.json"
  = Py.Ok (ZoneManager.Make "z.json" (Py.VList []))
  /\ ZoneManager.__init__
       (FileSystem {[ "z.json" := Json (Py.VDict {[ "zones" := Py.VInt 5 ]}) ]} ∅ ∅)
       "z.json"
     = Py.Ok (ZoneManager.Make "z.json" (Py.VInt 5)).
Proof.
  split.
  - refine (proj1 (load_object_defaults_missing_zones_key _ _ _ _) _).
    + cbn. apply lookup_singleton_eq.
    + by apply lookup_singleton_ne.
  - refine (proj2 (load_object_defaults_missing_zones_key _ _ _ _) _ _).
    + cbn. apply lookup_singleton_eq.
    + apply lookup_singleton_eq.
Defined.

(** *** Building, saving and loading a registry *)

Lemma zone_value_inj (z1 z2 : zone) : zone_value z1 = zone_value z2 -> z1 = z2.
Proof.
  destruct z1 as [i1 p1], z2 as [i2 p2]. unfold zone_value.
  cbn [zone_id zone_points]. intros E.
  assert (Hid := f_equal
    (fun v => match v with Py.VDict d => d !! "id" | _ => None end) E).
  assert (Hpts := f_equal
    (fun v => match v with Py.VDict d => d !! "points" | _ => None end) E).
  cbv beta iota in Hid, Hpts.
  rewrite !lookup_insert_eq in Hid.
  rewrite !(lookup_insert_ne _ "id" "points"), !lookup_insert_eq in Hpts by done.
  injection Hid as ->. injection Hpts as Hpts. clear E. f_equal.
  revert p2 Hpts. induction p1 as [|a p1 IH]; intros [|b p2] H; try done.
  cbn [map] in H. injection H as Hx Hy Hrest.
  apply IH in Hrest as ->. destruct a, b. cbn in Hx, Hy. by subst.
Qed.

Lemma add_zone_typed (m : ZoneManager.t) (zs : list zone) (points : list (Q * Q))
    (zone_id : option Z) :
  ZoneManager.zones m = Py.VList (map zone_value zs) ->
  ZoneManager.add_zone m points zone_id
  = Py.Ok (ZoneManager.Make (ZoneManager.json_path m)
             (Py.VList (map zone_value
                (zs ++ zones_of_adds (length zs) [(points, zone_id)])))).
Proof.
  intros H. unfold ZoneManager.add_zone, ZoneManager.set_zones. rewrite H.
  destruct zone_id as [i|]; cbn; rewrite ?List.length_map, map_app; reflexivity.
Qed.

(** Without an explicit id, a registry that holds two zones assigns 3. *)
Example add_zone_default_id :
  let m := ZoneManager.Make "zones.json"
             (Py.VList (map zone_value [Zone 1 [(0, 0)]; Zone 2 [(1, 1)]])) in
  ZoneManager.add_zone m [(4, 5); (6, 7); (8, 9)]%Q None
  = Py.Ok (ZoneManager.Make "zones.json"
             (Py.VList (map zone_value
                [Zone 1 [(0, 0)]; Zone 2 [(1, 1)];
                 Zone 3 [(4, 5); (6, 7); (8, 9)]]))).
Proof. reflexivity. Qed.

Lemma add_zones_typed (adds : list (list (Q * Q) * option Z)) (m : ZoneManager.t)
    (zs : list zone) :
  ZoneManager.zones m = Py.VList (map zone_value zs) ->
  add_zones m adds
  = Py.Ok (ZoneManager.Make (ZoneManager.json_path m)
             (Py.VList (map zone_value (zs ++ zones_of_adds (length zs) adds)))).
Proof.
  revert m zs. induction adds as [|[points zone_id] adds IH]; intros m zs H.
  - cbn. rewrite app_nil_r, <- H. by destruct m.
  - cbn [add_zones]. rewrite (add_zone_typed m zs points zone_id H).
    cbn [Py.bind]. rewrite (IH _ (zs ++ zones_of_adds (length zs) [(points, zone_id)]));
      [|reflexivity].
    cbn [ZoneManager.json_path]. rewrite <- app_assoc. cbn [zones_of_adds app].
    rewrite length_app. cbn [length]. by rewrite Nat.add_1_r.
Qed.

Lemma zones_of_adds_length (n : nat) (adds : list (list (Q * Q) * option Z)) :
  length (zones_of_adds n adds) = length adds.
Proof.
  revert n. induction adds as [|[points zone_id] adds IH]; intros n; cbn; [done|].
  by rewrite IH.
Qed.

Lemma save_zones_allowed (fs : filesystem) (m : ZoneManager.t) :
  ZoneManager.json_path m ∉ denied fs ->
  ZoneManager.save_zones fs m
  = (true,
     FileSystem (<[ZoneManager.json_path m :=
                     Json (Py.VDict (<["zones" := ZoneManager.zones m]> ∅))]>
                 (files fs))
                (denied fs) (torn fs)).
Proof. intros H. unfold ZoneManager.save_zones. by rewrite decide_False. Qed.


Lemma save_zones_true (fs fs' : filesystem) (m : ZoneManager.t) :
  ZoneManager.save_zones fs m = (true, fs') ->
  files fs' !! ZoneManager.json_path m
  = Some (Json (Py.VDict (<["zones" := ZoneManager.zones m]> ∅))).
Proof.
  unfold ZoneManager.save_zones. case_decide; [done|].
  intros [= <-]. cbn. apply lookup_insert_eq.
Qed.

(** Saving any registry and loading the file again gives the registry back. *)
Lemma save_then_load (fs fs' : filesystem) (m : ZoneManager.t) :
  ZoneManager.save_zones fs m = (true, fs') ->
  ZoneManager.__init__ fs' (ZoneManager.json_path m) = Py.Ok m.
Proof.
  intros H. apply save_zones_true in H.
  rewrite (init_existing _ _ _ H), lookup_insert_eq. by destruct m.
Qed.

(** C9.  A registry built by [add_zone] calls on an empty registry,
    saved with success to its path and loaded again from that path,
    comes back as it was: the loaded registry holds the same zones, as
    many as were added, each with the id it was given (or the count plus
    one) and its integer points, in the order of the additions. *)
Theorem save_then_load_roundtrip (fs fs' : filesystem) (path : string)
    (adds : list (list (Q * Q) * option Z)) (m : ZoneManager.t) :
  add_zones (ZoneManager.Make path (Py.VList [])) adds = Py.Ok m ->
  ZoneManager.save_zones fs m = (true, fs') ->
  exists loaded,
    ZoneManager.__init__ fs' path = Py.Ok loaded
    /\ ZoneManager.get_zones loaded = ZoneManager.get_zones m
    /\ ZoneManager.get_zones loaded
       = Py.VList (map zone_value (zones_of_adds 0 adds))
    /\ length (zones_of_adds 0 adds) = length adds.
Proof.
  intros Hadd Hsave.
  rewrite (add_zones_typed adds _ []) in Hadd by reflexivity.
  injection Hadd as <-. cbn [ZoneManager.json_path app length] in *.
  eexists. split; [exact (save_then_load _ _ _ Hsave)|].
  split; [reflexivity|]. split; [reflexivity|]. apply zones_of_adds_length.
Qed.

(** Two zones, the second with float coordinates and an explicit id,
    saved to a fresh file and loaded again. *)
Lemma save_then_load_roundtrip_witness :
  let adds := [ ([(0, 0); (10, 0); (10, 10)]%Q, None);
                ([(1.5, 2.5); (7, 3); (4, 9.75)]%Q, Some 7) ] in
  let m := ZoneManager.Make "zones.json"
             (Py.VList (map zone_value
                [ Zone 1 [(0, 0); (10, 0); (10, 10)];
                  Zone 7 [(1, 2); (7, 3); (4, 9)] ])) in
  exists loaded,
    ZoneManager.__init__ (snd (ZoneManager.save_zones (FileSystem ∅ ∅ ∅) m)) "zones.json"
    = Py.Ok loaded
    /\ ZoneManager.get_zones loaded = ZoneManager.get_zones m
    /\ ZoneManager.get_zones loaded
       = Py.VList (map zone_value (zones_of_adds 0 adds))
    /\ length (zones_of_adds 0 adds) = length adds.
Proof.
  cbv zeta.
  refine (save_then_load_roundtrip (FileSystem ∅ ∅ ∅) _ "zones.json" _ _ _ _).
  - reflexivity.
  - rewrite save_zones_allowed; [reflexivity|]. cbn. set_solver.
Defined.

(** ** Further properties of the zone registry *)



(** X2.  [add_zone] succeeds exactly on a registry that is a list.  On
    a registry adopted from a file that is not a list it raises:
    [AttributeError] from [append] when the id is given or the value has
    a length (a string, a dict), [TypeError] from [len] otherwise. *)
Theorem add_zone_succeeds_iff_registry_is_list (m : ZoneManager.t)
    (points : list (Q * Q)) (zone_id : option Z) :
  ((exists m', ZoneManager.add_zone m points zone_id = Py.Ok m')
   <-> exists l, ZoneManager.zones m = Py.VList l)
  /\ ((forall l, ZoneManager.zones m <> Py.VList l) ->
      ZoneManager.add_zone m points zone_id
      = match zone_id, ZoneManager.zones m with
        | Some _, _ | None, Py.VStr _ | None, Py.VDict _ =>
            Py.Raise Py.AttributeError
        | None, _ => Py.Raise Py.TypeError
        end).
Proof.
  unfold ZoneManager.add_zone. destruct m as [path zs]. cbn [ZoneManager.zones].
  split; [split|].
  - intros [m' H]. destruct zs; try (by eexists);
      destruct zone_id; cbn in H; discriminate.
  - intros [l ->]. destruct zone_id; cbn; by eexists.
  - intros Hl. destruct zs; try (by destruct zone_id).
    by destruct (Hl l).
Qed.

Lemma zones_of_adds_default_ids (n : nat) (pointss : list (list (Q * Q))) :
  map zone_id (zones_of_adds n (map (fun points => (points, None)) pointss))
  = seqZ (Z.of_nat n + 1) (Z.of_nat (length pointss)).
Proof.
  revert n. induction pointss as [|points pointss IH]; intros n.
  - by rewrite seqZ_nil.
  - cbn [map zones_of_adds zone_id length default]. rewrite IH.
    rewrite (seqZ_cons (Z.of_nat n + 1)) by lia. f_equal. f_equal; lia.
Qed.

(** X3.  Zones added without an id to the empty registry get the ids
    1, 2, ..., n in the order of the additions; the calls never raise. *)
Theorem add_zone_default_ids_count_from_one (path : string)
    (pointss : list (list (Q * Q))) :
  exists zs,
    add_zones (ZoneManager.Make path (Py.VList []))
              (map (fun points => (points, None)) pointss)
    = Py.Ok (ZoneManager.Make path (Py.VList (map zone_value zs)))
    /\ map zone_id zs = seqZ 1 (Z.of_nat (length pointss))
    /\ map zone_points zs
       = map (map (fun '(x, y) => (Py.int x, Py.int y))) pointss.
Proof.
  eexists. split; [|split].
  - by rewrite (add_zones_typed _ _ []).
  - cbn [app length]. apply (zones_of_adds_default_ids 0).
  - cbn [app length]. generalize 0%nat.
    induction pointss as [|points pointss IH]; intros n; [done|].
    cbn [map zones_of_adds zone_points]. by rewrite IH.
Qed.

(** X4.  The default id is the count plus one, whatever ids are in use:
    on a registry of n zones one of which already has the id n + 1,
    adding a zone without an id yields two zones with the same id. *)
Theorem add_zone_default_id_repeats_existing_id (m : ZoneManager.t)
    (zs : list zone) (points : list (Q * Q)) :
  ZoneManager.zones m = Py.VList (map zone_value zs) ->
  Z.of_nat (length zs) + 1 ∈ map zone_id zs ->
  exists zs',
    ZoneManager.add_zone m points None
    = Py.Ok (ZoneManager.Make (ZoneManager.json_path m)
               (Py.VList (map zone_value zs')))
    /\ ~ NoDup (map zone_id zs').
Proof.
  intros Hm Hin. eexists. split; [by apply add_zone_typed|].
  cbn [zones_of_adds default]. rewrite map_app. cbn [map zone_id].
  intros Hnd. apply NoDup_app in Hnd as (_ & Hdisj & _).
  apply (Hdisj _ Hin). by left.
Qed.

(** A registry holding one zone with id 2. *)
Lemma add_zone_default_id_repeats_existing_id_witness :
  exists zs',
    ZoneManager.add_zone
      (ZoneManager.Make "zones.json"
         (Py.VList (map zone_value [Zone 2 [(0, 0); (4, 0); (4, 4)]])))
      [(1, 1); (2, 1); (2, 2)]%Q None
    = Py.Ok (ZoneManager.Make "zones.json" (Py.VList (map zone_value zs')))
    /\ ~ NoDup (map zone_id zs').
Proof.
  refine (add_zone_default_id_repeats_existing_id
            (ZoneManager.Make "zones.json" _) [Zone 2 [(0, 0); (4, 0); (4, 4)]] _ _ _).
  - reflexivity.
  - cbn. by left.
Defined.


(** X6.  Loading a zone file and saving the manager back rewrites the
    file as a document with the single key ["zones"]: the other keys of
    a JSON object are dropped (and a missing ["zones"] key is written
    as the empty list), and a file that was not JSON is replaced by the
    document of the empty registry. *)
Theorem load_then_save_rewrites_document (fs : filesystem) (path : string) :
  path ∉ denied fs ->
  (forall d, files fs !! path = Some (Json (Py.VDict d)) ->
     exists m,
       ZoneManager.__init__ fs path = Py.Ok m
       /\ fst (ZoneManager.save_zones fs m) = true
       /\ files (snd (ZoneManager.save_zones fs m)) !! path
          = Some (Json (Py.VDict
               (<["zones" := default (Py.VList []) (d !! "zones")]> ∅))))
  /\ (files fs !! path = Some NotJson ->
      exists m,
        ZoneManager.__init__ fs path = Py.Ok m
        /\ fst (ZoneManager.save_zones fs m) = true
        /\ files (snd (ZoneManager.save_zones fs m)) !! path
           = Some (Json (Py.VDict (<["zones" := Py.VList []]> ∅)))).
Proof.
  intros Hw. split.
  - intros d Hd. eexists. split; [exact (init_existing _ _ _ Hd)|].
    rewrite save_zones_allowed by done. cbn. split; [done|].
    apply lookup_insert_eq.
  - intros Hd. eexists. split; [exact (init_existing _ _ _ Hd)|].
    rewrite save_zones_allowed by done. cbn. split; [done|].
    apply lookup_insert_eq.
Qed.

(** A document with a version key beside the zones. *)
Lemma load_then_save_rewrites_document_witness :
  let d : gmap string Py.value :=
    <["version" := Py.VInt 2]> (<["zones" := Py.VList []]> ∅) in
  let fs := FileSystem {[ "z.json" := Json (Py.VDict d) ]} ∅ ∅ in
  exists m,
    ZoneManager.__init__ fs "z.json" = Py.Ok m
    /\ fst (ZoneManager.save_zones fs m) = true
    /\ files (snd (ZoneManager.save_zones fs m)) !! "z.json"
       = Some (Json (Py.VDict
            (<["zones" := default (Py.VList []) (d !! "zones")]> ∅))).
Proof.
  cbv zeta.
  refine (proj1 (load_then_save_rewrites_document _ "z.json" _) _ _).
  - cbn. set_solver.
  - cbn. apply lookup_singleton_eq.
Defined.

(** X7.  After [clear_zones] a zone can always be added, whatever the
    registry held before (a value adopted from a file that is not a
    list included), and the default id starts again at 1.  Saving the
    cleared registry to a writable path empties the file: loading it
    gives the empty registry. *)
Theorem clear_zones_then_add_starts_at_one (m : ZoneManager.t)
    (points : list (Q * Q)) (fs : filesystem) :
  ZoneManager.add_zone (ZoneManager.clear_zones m) points None
  = Py.Ok (ZoneManager.Make (ZoneManager.json_path m)
             (Py.VList [zone_value
                (Zone 1 (map (fun '(x, y) => (Py.int x, Py.int y)) points))]))
  /\ (ZoneManager.json_path m ∉ denied fs ->
      ZoneManager.__init__
        (snd (ZoneManager.save_zones fs (ZoneManager.clear_zones m)))
        (ZoneManager.json_path m)
      = Py.Ok (ZoneManager.Make (ZoneManager.json_path m) (Py.VList []))).
Proof.
  split; [by destruct m|]. intros Hw.
  apply (save_then_load fs _ (ZoneManager.clear_zones m)).
  by rewrite save_zones_allowed.
Qed.

(** ** Further properties of the alarm *)

Lemma run_cons (s : AlarmState.t) (intrusion : bool) (now : Float.t)
    (frames : list (bool * Float.t)) :
  IntrusionDetector.run s ((intrusion, now) :: frames)
  = IntrusionDetector.run (IntrusionDetector.update s intrusion now) frames.
Proof. reflexivity. Qed.

Lemma run_app (s : AlarmState.t) (frames1 frames2 : list (bool * Float.t)) :
  IntrusionDetector.run s (frames1 ++ frames2)
  = IntrusionDetector.run (IntrusionDetector.run s frames1) frames2.
Proof. unfold IntrusionDetector.run. apply fold_left_app. Qed.

Lemma check_deactivate_delay (s : AlarmState.t) (now : Float.t) :
  AlarmState.deactivate_delay (AlarmState.check_deactivate s now)
  = AlarmState.deactivate_delay s.
Proof.
  unfold AlarmState.check_deactivate.
  repeat match goal with
         | |- context [if ?c then _ else _] => destruct c
         end; reflexivity.
Qed.

Lemma update_delay (s : AlarmState.t) (intrusion : bool) (now : Float.t) :
  AlarmState.deactivate_delay (IntrusionDetector.update s intrusion now)
  = AlarmState.deactivate_delay s.
Proof. destruct intrusion; [reflexivity|apply check_deactivate_delay]. Qed.

Lemma run_delay (s : AlarmState.t) (frames : list (bool * Float.t)) :
  AlarmState.deactivate_delay (IntrusionDetector.run s frames)
  = AlarmState.deactivate_delay s.
Proof.
  revert s. induction frames as [|[intrusion now] frames IH]; intros s; [done|].
  by rewrite run_cons, IH, update_delay.
Qed.

Lemma run_quiet_inactive (d : Float.t) (ts : list Float.t) :
  IntrusionDetector.run (AlarmState.Make false None d) (map (pair false) ts)
  = AlarmState.Make false None d.
Proof. induction ts as [|t ts IH]; [done|]. cbn [map]. by rewrite run_cons. Qed.

Lemma run_quiet_pending (t d : Float.t) (ts : list Float.t) :
  Py.truthy (Some t) = true ->
  IntrusionDetector.run (AlarmState.Make true (Some t) d) (map (pair false) ts)
  = if existsb (Float.leb t) ts
    then AlarmState.Make false None d
    else AlarmState.Make true (Some t) d.
Proof.
  intros Ht. induction ts as [|t' ts IH]; [done|].
  cbn [map existsb]. rewrite run_cons. cbn [IntrusionDetector.update].
  destruct (Float.leb t t') eqn:E.
  - rewrite (check_deactivate_due _ t t'); try done.
    cbn [orb AlarmState.deactivate_delay]. apply run_quiet_inactive.
  - by rewrite (check_deactivate_pending _ t t').
Qed.

Lemma run_after_intrusion (frames : list (bool * Float.t)) (now : Float.t) :
  IntrusionDetector.run AlarmState.__init__ (frames ++ [(true, now)])
  = AlarmState.Make true None (Float.f64 3 0).
Proof.
  rewrite run_snoc. cbn [IntrusionDetector.update]. rewrite activate_state.
  by rewrite run_delay.
Qed.

(** X8.  The hold time of the alarm.  After the last frame with an
    intrusion, the first frame without one (at time [t1]) schedules the
    deactivation at the binary64 sum of [t1] and 3.0.  When that sum is
    not zero and above [t1], the alarm stays on through the following
    frames without an intrusion as long as no frame time has reached the
    sum, and it is off, with no time stamp, once one has. *)
Theorem alarm_stays_on_until_deadline_reached (before : list (bool * Float.t))
    (t0 t1 : Float.t) (ts : list Float.t) :
  Py.truthy (Some (Float.add Float.binary64 t1 (Float.f64 3 0))) = true ->
  Float.leb (Float.add Float.binary64 t1 (Float.f64 3 0)) t1 = false ->
  IntrusionDetector.run AlarmState.__init__
    (before ++ (true, t0) :: map (pair false) (t1 :: ts))
  = if existsb (Float.leb (Float.add Float.binary64 t1 (Float.f64 3 0))) ts
    then AlarmState.Make false None (Float.f64 3 0)
    else AlarmState.Make true
           (Some (Float.add Float.binary64 t1 (Float.f64 3 0))) (Float.f64 3 0).
Proof.
  intros Hnz Hlt.
  change (before ++ (true, t0) :: map (pair false) (t1 :: ts))
    with (before ++ [(true, t0)] ++ map (pair false) (t1 :: ts)).
  rewrite app_assoc, run_app, run_after_intrusion.
  cbn [map]. rewrite run_cons. cbn [IntrusionDetector.update].
  rewrite check_deactivate_schedules; [|done|done].
  cbn [AlarmState.deactivate_delay]. cbv zeta. rewrite Hnz, Hlt. cbn [andb].
  by apply run_quiet_pending.
Qed.

(** Intrusion at 0, quiet frames at 1, 2 and 3.5: still on (due at 4);
    one more quiet frame at 4: off. *)
Lemma alarm_stays_on_until_deadline_reached_witness :
  IntrusionDetector.run AlarmState.__init__
    ([] ++ (true, Float.f64 0 0)
        :: map (pair false) [Float.f64 1 0; Float.f64 2 0; Float.f64 7 (-1)])
  = AlarmState.Make true (Some (Float.f64 4 0)) (Float.f64 3 0)
  /\ IntrusionDetector.run AlarmState.__init__
       ([] ++ (true, Float.f64 0 0)
           :: map (pair false)
                [Float.f64 1 0; Float.f64 2 0; Float.f64 7 (-1); Float.f64 4 0])
     = AlarmState.Make false None (Float.f64 3 0).
Proof.
  split.
  - exact (alarm_stays_on_until_deadline_reached [] (Float.f64 0 0)
             (Float.f64 1 0) [Float.f64 2 0; Float.f64 7 (-1)]
             eq_refl eq_refl).
  - exact (alarm_stays_on_until_deadline_reached [] (Float.f64 0 0)
             (Float.f64 1 0) [Float.f64 2 0; Float.f64 7 (-1); Float.f64 4 0]
             eq_refl eq_refl).
Defined.

Lemma run_no_intrusion (frames : list (bool * Float.t)) :
  (forall now, (true, now) ∉ frames) ->
  IntrusionDetector.run AlarmState.__init__ frames = AlarmState.__init__.
Proof.
  intros H. induction frames as [|[intrusion now] frames IH] using rev_ind;
    [done|].
  rewrite run_snoc, IH.
  - destruct intrusion; [|done]. destruct (H now). set_solver.
  - intros now' Hin. apply (H now'). set_solver.
Qed.

(** X9.  The alarm never turns on by itself: as long as no frame
    reports an intrusion the state stays the initial one, so an active
    alarm after a run means that some frame of the run reported an
    intrusion. *)
Theorem alarm_never_activates_without_intrusion :
  (forall frames,
     (forall now, (true, now) ∉ frames) ->
     IntrusionDetector.run AlarmState.__init__ frames = AlarmState.__init__)
  /\ (forall frames,
        AlarmState.active (IntrusionDetector.run AlarmState.__init__ frames) = true ->
        exists now, (true, now) ∈ frames).
Proof.
  split; [apply run_no_intrusion|].
  intros frames Hact.
  destruct (existsb fst frames) eqn:E.
  - apply existsb_exists in E as ([b now] & Hin & Hb). cbn in Hb. subst b.
    exists now. by apply list_elem_of_In.
  - rewrite run_no_intrusion in Hact; [done|].
    intros now Hin. apply list_elem_of_In in Hin.
    assert (existsb fst frames = true) as E'
      by (apply existsb_exists; by exists (true, now)).
    congruence.
Qed.

(** X10.  [reset] forgets the history: after any run from the initial
    state, [reset] gives the initial state again, so the frames that
    follow are handled as by a fresh alarm. *)
Theorem reset_after_run_is_fresh (frames later : list (bool * Float.t)) :
  AlarmState.reset (IntrusionDetector.run AlarmState.__init__ frames)
  = AlarmState.__init__
  /\ IntrusionDetector.run
       (AlarmState.reset (IntrusionDetector.run AlarmState.__init__ frames)) later
     = IntrusionDetector.run AlarmState.__init__ later.
Proof.
  assert (AlarmState.reset (IntrusionDetector.run AlarmState.__init__ frames)
          = AlarmState.__init__) as E.
  { unfold AlarmState.reset. by rewrite run_delay. }
  by rewrite E.
Qed.

(** ** Further properties of the geometry and of the aggregation *)

Lemma zones_containing_sublist `{cv2 : OpenCV} (p : point) (zones : list zone) :
  sublist (zones_containing p zones) (map zone_id zones).
Proof.
  unfold zones_containing. induction zones as [|z zones IH]; cbn; [constructor|].
  destruct (point_in_polygon p (zone_points z)); cbn; by constructor.
Qed.

(** X12.  The ids returned by [check_person_in_zones] are a
    subsequence of the ids of the registry: there are at most as many as
    zones, none for the empty registry, and no id is repeated when the
    ids of the registry are distinct. *)
Theorem check_person_in_zones_ids_are_subsequence `{cv2 : OpenCV}
    (center : point) (zones : list zone) :
  sublist (check_person_in_zones center zones) (map zone_id zones)
  /\ (length (check_person_in_zones center zones) <= length zones)%nat
  /\ check_person_in_zones center [] = []
  /\ (NoDup (map zone_id zones) -> NoDup (check_person_in_zones center zones)).
Proof.
  rewrite check_person_in_zones_eq.
  pose proof (zones_containing_sublist center zones) as Hsub.
  split; [done|]. split; [|split; [done|]].
  - apply sublist_length in Hsub. by rewrite length_map in Hsub.
  - intros Hnd. by eapply sublist_NoDup.
Qed.

Lemma intruder_centre `{cv2 : OpenCV} (zones : list zone) (b : box) :
  intruder zones b
  = existsb (fun z => point_in_polygon (center b) (zone_points z)) zones.
Proof. reflexivity. Qed.

Lemma has_intrusion_centres `{cv2 : OpenCV} (zones : list zone)
    (results : list (list box)) :
  IntrusionDetector.has_intrusion zones results
  = existsb (fun c => existsb (fun z => point_in_polygon c (zone_points z)) zones)
      (concat (map (map center) results)).
Proof.
  rewrite has_intrusion_existsb.
  induction results as [|boxes results IH]; [done|].
  cbn [concat map]. rewrite !existsb_app, IH. f_equal.
  induction boxes as [|b boxes IHb]; [done|]. cbn [map existsb].
  by rewrite IHb.
Qed.

Lemma centres_of_results (results : list (list box)) :
  map (map center) results
  = map (map (Py.returned (0, 0)))
      (map (map (fun b => bbox_center Float.binary32 (xyxy b))) results).
Proof.
  rewrite List.map_map. apply List.map_ext. intros boxes.
  by rewrite List.map_map.
Qed.

(** X13.  The intrusion decision uses nothing of a detection but the
    centre of its box: two sets of detections with the same centres give
    the same [has_intrusion], whatever the sizes of the boxes and the
    confidence scores (a detection with confidence 0 counts like any
    other). *)
Theorem has_intrusion_depends_on_centres_only `{cv2 : OpenCV} (zones : list zone)
    (results results' : list (list box)) :
  map (map (fun b => bbox_center Float.binary32 (xyxy b))) results
  = map (map (fun b => bbox_center Float.binary32 (xyxy b))) results' ->
  IntrusionDetector.has_intrusion zones results
  = IntrusionDetector.has_intrusion zones results'.
Proof. intros H. by rewrite !has_intrusion_centres, !centres_of_results, H. Qed.

(** A large confident box and a small box of confidence 0, both centred
    on (5,5). *)
Lemma has_intrusion_depends_on_centres_only_witness :
  @IntrusionDetector.has_intrusion CrossingTest.cv2
    [Zone 1 [(0, 0); (10, 0); (10, 10); (0, 10)]]
    [[Box (Float.f32 0 0, Float.f32 0 0, Float.f32 10 0, Float.f32 10 0)
          0.9%Q eq_refl]]
  = @IntrusionDetector.has_intrusion CrossingTest.cv2
      [Zone 1 [(0, 0); (10, 0); (10, 10); (0, 10)]]
      [[Box (Float.f32 4 0, Float.f32 4 0, Float.f32 6 0, Float.f32 6 0)
          0%Q eq_refl]].
Proof.
  apply (@has_intrusion_depends_on_centres_only CrossingTest.cv2).
  reflexivity.
Defined.

Lemma has_intrusion_true_iff `{cv2 : OpenCV} (zones : list zone)
    (results : list (list box)) :
  IntrusionDetector.has_intrusion zones results = true
  <-> exists b z, In b (concat results) /\ In z zones
        /\ point_in_polygon (center b) (zone_points z) = true.
Proof.
  rewrite has_intrusion_existsb, existsb_exists. split.
  - intros (b & Hb & Hi). rewrite intruder_centre in Hi.
    apply existsb_exists in Hi as (z & Hz & Hp). by exists b, z.
  - intros (b & z & Hb & Hz & Hp). exists b. split; [done|].
    rewrite intruder_centre. apply existsb_exists. by exists z.
Qed.

(** X14.  More zones or more detections never withdraw an intrusion:
    if [has_intrusion] holds for some zones and detections, it holds
    for every registry that contains those zones and every frame that
    contains those detections.  Without zones, or without detections,
    there is no intrusion. *)
Theorem has_intrusion_monotone `{cv2 : OpenCV} :
  (forall zones results zones_before zones_after results_before results_after,
     IntrusionDetector.has_intrusion zones results = true ->
     IntrusionDetector.has_intrusion
       (zones_before ++ zones ++ zones_after)
       (results_before ++ results ++ results_after) = true)
  /\ (forall results, IntrusionDetector.has_intrusion [] results = false)
  /\ (forall zones, IntrusionDetector.has_intrusion zones [] = false)
  /\ (forall zones n, IntrusionDetector.has_intrusion zones (replicate n []) = false).
Proof.
  split; [|split; [|split]].
  - intros zones results zb za rb ra H.
    apply has_intrusion_true_iff in H as (b & z & Hb & Hz & Hp).
    apply has_intrusion_true_iff. exists b, z.
    rewrite !concat_app, !in_app_iff. auto.
  - intros results. rewrite has_intrusion_existsb.
    induction (concat results) as [|b bs IH]; [done|]. cbn. exact IH.
  - intros zones. reflexivity.
  - intros zones n. rewrite has_intrusion_existsb.
    induction n as [|n IH]; [done|]. cbn. exact IH.
Qed.

(** ** The frame *)

Lemma paint_paint_all (f : frame) (ds : list draw) (d : draw) :
  paint (paint_all f ds) d = paint_all f (ds ++ [d]).
Proof. unfold paint, paint_all. cbn. by rewrite app_assoc. Qed.

Lemma paint_all_nil (f : frame) : paint_all f [] = f.
Proof. destruct f. unfold paint_all. cbn. by rewrite app_nil_r. Qed.

Lemma paint_all_app (f : frame) (ds1 ds2 : list draw) :
  paint_all (paint_all f ds1) ds2 = paint_all f (ds1 ++ ds2).
Proof. unfold paint_all. cbn. by rewrite app_assoc. Qed.

Lemma paint_eq (f : frame) (d : draw) : paint f d = paint_all f [d].
Proof. reflexivity. Qed.

Section frame_facts.
Context `{cv2 : OpenCV} `{cv2text : OpenCVText}.

Lemma hd_zones_containing (p : point) (zones : list zone) :
  head (zones_containing p zones) = zone_id <$> first_zone_containing p zones.
Proof.
  unfold zones_containing, first_zone_containing.
  induction zones as [|z zones IH]; [done|]. cbn.
  by destruct (point_in_polygon p (zone_points z)).
Qed.

Lemma box_body_eq (zones : list zone) (f : frame) (has : bool) (b : box) :
  Video.box_body zones (f, has) b
  = (paint_all f (detection_draws zones b), IntrusionDetector.box_step zones has b).
Proof.
  unfold Video.box_body, detection_draws, IntrusionDetector.box_step.
  destruct (xyxy b) as [[[x1 y1] x2] y2].
  rewrite check_person_in_zones_eq.
  pose proof (hd_zones_containing (center b) zones) as Hhd.
  destruct (zones_containing _ zones) as [|z0 rest];
    destruct (first_zone_containing _ zones) as [z|]; try discriminate Hhd.
  - by rewrite !paint_eq, !paint_all_app.
  - injection Hhd as ->. by rewrite !paint_eq, !paint_all_app.
Qed.

Lemma boxes_body_eq (zones : list zone) (boxes : list box) (f : frame) (has : bool) :
  fold_left (Video.box_body zones) boxes (f, has)
  = (paint_all f (flat_map (detection_draws zones) boxes),
     fold_left (IntrusionDetector.box_step zones) boxes has).
Proof.
  revert f has. induction boxes as [|b boxes IH]; intros f has.
  - cbn. by rewrite paint_all_nil.
  - cbn [fold_left flat_map]. rewrite box_body_eq, IH. by rewrite paint_all_app.
Qed.

Lemma results_body_eq (zones : list zone) (results : list (list box))
    (f : frame) (has : bool) :
  fold_left (fun acc boxes => fold_left (Video.box_body zones) boxes acc)
            results (f, has)
  = (paint_all f (flat_map (detection_draws zones) (concat results)),
     fold_left (fun acc boxes =>
                  fold_left (IntrusionDetector.box_step zones) boxes acc)
               results has).
Proof.
  revert f has. induction results as [|boxes results IH]; intros f has.
  - cbn. by rewrite paint_all_nil.
  - cbn [fold_left concat]. rewrite boxes_body_eq, IH, paint_all_app.
    by rewrite flat_map_app.
Qed.

Lemma process_frame_eq (zones : list zone) (alarm : AlarmState.t) (f : frame)
    (results : list (list box)) (now : Float.t) :
  Video.process_frame zones alarm f results now
  = (paint_all f (flat_map (detection_draws zones) (concat results)),
     IntrusionDetector.process_frame zones alarm results now).
Proof.
  unfold Video.process_frame. by rewrite results_body_eq.
Qed.

Lemma draw_zone_eq (f : frame) (z : zone) :
  Video.draw_zone f z = paint_all f (if drawable z then zone_draws z else []).
Proof.
  unfold Video.draw_zone, drawable, zone_draws.
  destruct (3 <=? length (zone_points z))%nat eqn:E; [|by rewrite paint_all_nil].
  destruct (zone_points z) as [|p0 pts]; [done|].
  cbn [hd]. by rewrite !paint_eq, !paint_all_app.
Qed.

Lemma draw_zones_eq (zones : list zone) (f : frame) :
  Video.draw_zones zones f
  = paint_all f (flat_map zone_draws (List.filter drawable zones)).
Proof.
  unfold Video.draw_zones. revert f.
  induction zones as [|z zones IH]; intros f; cbn [fold_left].
  - cbn. by rewrite paint_all_nil.
  - rewrite IH, draw_zone_eq, paint_all_app. cbn [List.filter].
    by destruct (drawable z).
Qed.

End frame_facts.

Lemma first_zone_containing_Some `{cv2 : OpenCV} (p : point) (zones : list zone)
    (z : zone) :
  first_zone_containing p zones = Some z
  <-> exists before after,
        zones = before ++ z :: after
        /\ point_in_polygon p (zone_points z) = true
        /\ forall z', In z' before -> point_in_polygon p (zone_points z') = false.
Proof.
  unfold first_zone_containing. induction zones as [|z0 zones IH]; cbn.
  - split; [done|]. intros (before & after & E & _). by destruct before.
  - destruct (point_in_polygon p (zone_points z0)) eqn:E0.
    + split.
      * intros [= <-]. by exists [], zones.
      * intros ([|b before] & after & E & Hp & Hb).
        -- by injection E as <- _.
        -- injection E as <- _. rewrite Hb in E0; [done|by left].
    + rewrite IH. split.
      * intros (before & after & -> & Hp & Hb).
        exists (z0 :: before), after. split; [done|]. split; [done|].
        intros z' [<-|Hin]; [done|by apply Hb].
      * intros ([|b before] & after & E & Hp & Hb).
        -- injection E as <- _. congruence.
        -- injection E as <- ->. exists before, after.
           split; [done|]. split; [done|]. intros z' Hin. apply Hb. by right.
Qed.

(** X15.  [process_frame] keeps what was drawn on the frame and adds,
    for every detection in order, three drawings: the box, a label and
    a dot on the representative point.  They are red, and the label
    names the first zone in registry order that contains the point (only
    that one, also when several zones contain it), when there is such a
    zone; they are green, with the confidence as the label, otherwise.
    The alarm is updated as by the intrusion decision alone. *)
Theorem process_frame_draws_each_detection `{cv2 : OpenCV} (zones : list zone)
    (alarm : AlarmState.t) (f : frame) (results : list (list box)) (now : Float.t) :
  Video.process_frame zones alarm f results now
  = (paint_all f (flat_map (detection_draws zones) (concat results)),
     IntrusionDetector.update alarm
       (IntrusionDetector.has_intrusion zones results) now)
  /\ length (drawn (fst (Video.process_frame zones alarm f results now)))
     = (length (drawn f) + 3 * length (concat results))%nat
  /\ (forall p z,
        first_zone_containing p zones = Some z
        <-> exists before after,
              zones = before ++ z :: after
              /\ point_in_polygon p (zone_points z) = true
              /\ forall z', In z' before ->
                   point_in_polygon p (zone_points z') = false).
Proof.
  rewrite process_frame_eq. split; [reflexivity|]. split.
  - cbn [fst paint_all drawn]. rewrite length_app. f_equal.
    induction (concat results) as [|b bs IH]; [done|].
    cbn [flat_map]. rewrite length_app, IH. unfold detection_draws.
    destruct (xyxy b) as [[[x1 y1] x2] y2].
    destruct (first_zone_containing _ zones); cbn [length]; lia.
  - intros p z. apply first_zone_containing_Some.
Qed.

(** X16.  [draw_zones] draws, in registry order, the zones that have
    at least three points (fill, outline and name, at the first point)
    and nothing for the others.  A zone with fewer than three points is
    therefore never visible, although the intrusion test still runs on
    it: where the containment test answers true for such a zone, the
    frame reports an intrusion. *)
Theorem draw_zones_skips_zones_under_three_points `{cv2 : OpenCV}
    (zones : list zone) (f : frame) :
  Video.draw_zones zones f
  = paint_all f (flat_map zone_draws (List.filter drawable zones))
  /\ (forall z b,
        (length (zone_points z) < 3)%nat ->
        Video.draw_zones [z] f = f
        /\ (forall c,
              bbox_center Float.binary32 (xyxy b) = Py.Ok c ->
              point_in_polygon c (zone_points z) = true ->
              IntrusionDetector.has_intrusion [z] [[b]] = true)).
Proof.
  split; [apply draw_zones_eq|].
  intros z b Hlen. split.
  - rewrite draw_zones_eq. cbn [List.filter]. unfold drawable.
    destruct (Nat.leb_spec 3 (length (zone_points z))); [lia|].
    apply paint_all_nil.
  - intros c Hc Hp. rewrite bbox_center_center in Hc. injection Hc as <-.
    apply has_intrusion_true_iff. exists b, z. cbn. auto.
Qed.

(** X17.  [draw_alarm] leaves the frame alone while the alarm is off.
    While it is on, it adds the alarm text and a rectangle around it:
    the text is centred in the frame (to the pixel, rounding down) and
    the rectangle is the text box widened by 10 pixels on every side. *)
Theorem draw_alarm_draws_centred_banner_iff_active `{cv2text : OpenCVText}
    (alarm : AlarmState.t) (f : frame) :
  (AlarmState.active alarm = false -> Video.draw_alarm alarm f = f)
  /\ (AlarmState.active alarm = true ->
      exists x y text_width text_height baseline,
        getTextSize AlarmText 2%Q 4 = ((text_width, text_height), baseline)
        /\ Video.draw_alarm alarm f
           = paint_all f
               [ putText AlarmText (x, y) 2%Q (0, 0, 255) 4;
                 rectangle (x - 10, y - text_height - 10)
                           (x + text_width + 10, y + baseline + 10)
                           (0, 0, 255) 3 ]
        /\ 2 * x <= cols f - text_width <= 2 * x + 1
        /\ 2 * y <= rows f + text_height <= 2 * y + 1).
Proof.
  unfold Video.draw_alarm. split; intros ->; [done|].
  destruct (getTextSize AlarmText 2%Q 4) as [[tw th] bl].
  exists ((cols f - tw) / 2), ((rows f + th) / 2), tw, th, bl.
  split; [done|]. split; [by rewrite !paint_eq, paint_all_app|].
  pose proof (Z.div_mod (cols f - tw) 2 ltac:(lia)).
  pose proof (Z.mod_pos_bound (cols f - tw) 2 ltac:(lia)).
  pose proof (Z.div_mod (rows f + th) 2 ltac:(lia)).
  pose proof (Z.mod_pos_bound (rows f + th) 2 ltac:(lia)).
  lia.
Qed.

(** ** The video loop *)

Section video_loop_facts.
Context `{cv2 : OpenCV} `{cv2text : OpenCVText}.

Lemma run_loop_spec (zones : list zone) (start_time : Float.t) (total : Z)
    (writer show_preview : bool) (l : list shot) (st : outcome) :
  exists fs fq,
    length fs = length (fst (counted_and_last show_preview l))
    /\ length fq = length (option_list (snd (counted_and_last show_preview l)))
    /\ Video.run_loop zones start_time total writer show_preview l st
       = {| alarm_state :=
              IntrusionDetector.run (alarm_state st)
                (alarm_inputs zones start_time
                   (fst (counted_and_last show_preview l)
                    ++ option_list (snd (counted_and_last show_preview l))));
            frame_count :=
              frame_count st
              + Z.of_nat (length (fst (counted_and_last show_preview l)));
            written := written st ++ (if writer then fs else []);
            shown := shown st ++ (if show_preview then fs ++ fq else []) |}.
Proof.
  revert st. induction l as [|sh l IH]; intros st.
  - exists [], []. destruct st, show_preview, writer; cbn;
      rewrite ?app_nil_r, ?Z.add_0_r; done.
  - cbn [Video.run_loop]. rewrite process_frame_eq.
    set (alarm := IntrusionDetector.process_frame _ _ _ _).
    set (f := paint (Video.draw_alarm _ _) _).
    unfold counted_and_last in *. destruct show_preview; cbn [andb].
    + cbn [until_quit]. fold (quits sh). destruct (quits sh) eqn:Eq.
      * exists [], [f]. cbn. rewrite ?app_nil_r, ?Z.add_0_r.
        destruct writer; by rewrite app_nil_r.
      * destruct (IH {| alarm_state := alarm;
                        frame_count := frame_count st + 1;
                        written := if writer then written st ++ [f] else written st;
                        shown := shown st ++ [f] |}) as (fs & fq & Hfs & Hfq & ->).
        destruct (until_quit l) as [before q]. cbn [fst snd] in *.
        exists (f :: fs), fq. cbn [length]. split; [by rewrite Hfs|].
        split; [done|]. cbn [alarm_state frame_count written shown].
        f_equal.
        -- lia.
        -- destruct writer; by rewrite <- ?app_assoc.
        -- by rewrite <- app_assoc.
    + destruct (IH {| alarm_state := alarm;
                      frame_count := frame_count st + 1;
                      written := if writer then written st ++ [f] else written st;
                      shown := shown st |}) as (fs & fq & Hfs & Hfq & ->).
      cbn [fst snd] in *. exists (f :: fs), fq. cbn [length].
      split; [by rewrite Hfs|]. split; [done|].
      cbn [alarm_state frame_count written shown]. f_equal.
      * lia.
      * destruct writer; by rewrite <- ?app_assoc.
Qed.

Lemma until_quit_none (l : list shot) :
  (forall sh, In sh l -> quits sh = false) -> until_quit l = (l, None).
Proof.
  induction l as [|sh l IH]; intros H; [done|]. cbn.
  rewrite (H sh) by (by left). rewrite IH; [done|].
  intros sh' Hin. apply H. by right.
Qed.

End video_loop_facts.

(** X18.  With the preview on, the loop of [run] stops at the first
    frame during which the key read is 'q' (its code modulo 256).  That
    frame still updates the alarm and is shown, but it is neither
    counted in [frame_count] nor written; the frames before it are all
    counted, shown and, with an output path, written: the written frames
    are the shown frames without the last one. *)
Theorem run_with_preview_stops_at_q `{cv2 : OpenCV} `{cv2text : OpenCVText}
    (zones : list zone) (alarm : AlarmState.t) (cap : capture) (start_time : Float.t)
    (output_path : option string) :
  isOpened cap = true ->
  let o := Video.run zones alarm cap start_time output_path true in
  let before := fst (until_quit (shots cap)) in
  let last := option_list (snd (until_quit (shots cap))) in
  frame_count o = Z.of_nat (length before)
  /\ alarm_state o
     = IntrusionDetector.run alarm (alarm_inputs zones start_time (before ++ last))
  /\ length (shown o) = (length before + length last)%nat
  /\ length (written o)
     = (if Video.has_output output_path then length before else 0)%nat
  /\ (Video.has_output output_path = true ->
      written o = take (length before) (shown o)).
Proof.
  intros Hopen. cbv zeta. unfold Video.run. rewrite Hopen. cbn [negb].
  destruct (run_loop_spec zones start_time (total_frames cap)
              (Video.has_output output_path) true (shots cap)
              {| alarm_state := alarm; frame_count := 0; written := []; shown := [] |})
    as (fs & fq & Hfs & Hfq & ->).
  unfold counted_and_last in *. cbn [alarm_state frame_count written shown app].
  split; [done|]. split; [done|]. split; [by rewrite length_app, Hfs, Hfq|].
  split.
  - destruct (Video.has_output output_path); [done|reflexivity].
  - intros ->. by rewrite <- Hfs, take_app_length.
Qed.

(** Four frames, the keys none, 's', 'q', none: two frames are counted
    and written, three are shown, and the alarm is on. *)
Lemma run_with_preview_stops_at_q_witness :
  let square := [(0, 0); (10, 0); (10, 10); (0, 10)] in
  let sh := fun now k =>
    Shot (Frame 480 640 [])
      [[Box (Float.f32 2 0, Float.f32 2 0, Float.f32 8 0, Float.f32 8 0)
            0.9%Q eq_refl]] now k in
  let cap :=
    Capture true 4
      [ sh (Float.f64 10 0) (-1); sh (Float.f64 11 0) 115;
        sh (Float.f64 12 0) 113; sh (Float.f64 13 0) (-1) ] in
  let o := @Video.run CrossingTest.cv2 fixed_text_size [Zone 1 square]
             AlarmState.__init__ cap (Float.f64 10 0) (Some "out.mp4") true in
  frame_count o = 2
  /\ alarm_state o = AlarmState.Make true None (Float.f64 3 0)
  /\ length (shown o) = 3%nat
  /\ length (written o) = 2%nat.
Proof.
  cbv zeta.
  pose proof (@run_with_preview_stops_at_q CrossingTest.cv2 fixed_text_size
    [Zone 1 [(0, 0); (10, 0); (10, 10); (0, 10)]] AlarmState.__init__
    (Capture true 4
       [ Shot (Frame 480 640 [])
           [[Box (Float.f32 2 0, Float.f32 2 0, Float.f32 8 0, Float.f32 8 0)
                 0.9%Q eq_refl]] (Float.f64 10 0) (-1);
         Shot (Frame 480 640 [])
           [[Box (Float.f32 2 0, Float.f32 2 0, Float.f32 8 0, Float.f32 8 0)
                 0.9%Q eq_refl]] (Float.f64 11 0) 115;
         Shot (Frame 480 640 [])
           [[Box (Float.f32 2 0, Float.f32 2 0, Float.f32 8 0, Float.f32 8 0)
                 0.9%Q eq_refl]] (Float.f64 12 0) 113;
         Shot (Frame 480 640 [])
           [[Box (Float.f32 2 0, Float.f32 2 0, Float.f32 8 0, Float.f32 8 0)
                 0.9%Q eq_refl]] (Float.f64 13 0) (-1) ])
    (Float.f64 10 0) (Some "out.mp4") eq_refl) as H.
  cbv zeta in H. destruct H as (H1 & H2 & H3 & H4 & _).
  rewrite H1, H2, H3, H4. repeat split.
Defined.

(** X19.  The loop processes every frame of the video unless 'q' is
    read: without the preview no key is read at all, and with it no
    other key stops the loop (pressing 's' does not).  Then every frame
    is counted, updates the alarm in order and, with an output path, is
    written.  When the video cannot be opened nothing is processed. *)
Theorem run_processes_every_frame_unless_q `{cv2 : OpenCV} `{cv2text : OpenCVText}
    (zones : list zone) (alarm : AlarmState.t) (cap : capture) (start_time : Float.t)
    (output_path : option string) (show_preview : bool) :
  (isOpened cap = false ->
     Video.run zones alarm cap start_time output_path show_preview
     = Outcome alarm 0 [] [])
  /\ (isOpened cap = true ->
      show_preview = false
      \/ (forall sh, In sh (shots cap) -> Z.land (key sh) 255 <> 113) ->
      let o := Video.run zones alarm cap start_time output_path show_preview in
      frame_count o = Z.of_nat (length (shots cap))
      /\ alarm_state o
         = IntrusionDetector.run alarm (alarm_inputs zones start_time (shots cap))
      /\ length (written o)
         = (if Video.has_output output_path then length (shots cap) else 0)%nat
      /\ length (shown o) = (if show_preview then length (shots cap) else 0)%nat).
Proof.
  split.
  - intros Hclosed. unfold Video.run. by rewrite Hclosed.
  - intros Hopen Hq. cbv zeta. unfold Video.run. rewrite Hopen. cbn [negb].
    destruct (run_loop_spec zones start_time (total_frames cap)
                (Video.has_output output_path) show_preview (shots cap)
                {| alarm_state := alarm; frame_count := 0; written := []; shown := [] |})
      as (fs & fq & Hfs & Hfq & ->).
    assert (counted_and_last show_preview (shots cap) = (shots cap, None)) as E.
    { unfold counted_and_last. destruct show_preview; [|done].
      destruct Hq as [Hq|Hq]; [done|]. apply until_quit_none.
      intros sh Hin. unfold quits. apply Z.eqb_neq. by apply Hq. }
    rewrite E in *. cbn [fst snd option_list] in *.
    destruct fq; [|done]. rewrite !app_nil_r.
    cbn [alarm_state frame_count written shown app].
    split; [done|]. split; [done|]. split.
    + by destruct (Video.has_output output_path).
    + by destruct show_preview.
Qed.

(** ** The zone marker *)

Lemma int_inject_Z (x : Z) : Py.int (inject_Z x) = x.
Proof. unfold Py.int, inject_Z. cbn. apply Z.quot_1_r. Qed.

Lemma map_int_inject (pts : list point) :
  map (fun '(x, y) => (Py.int x, Py.int y))
      (map (fun '(x, y) => (inject_Z x, inject_Z y)) pts)
  = pts.
Proof.
  induction pts as [|[x y] pts IH]; [done|]. cbn [map].
  by rewrite IH, !int_inject_Z.
Qed.

Lemma commit_typed (m : ZoneMarker.t) (zs : list zone) :
  ZoneManager.zones (ZoneMarker.zone_manager m) = Py.VList (map zone_value zs) ->
  ZoneMarker.commit m
  = Py.Ok (ZoneMarker.Make
             (ZoneManager.Make (ZoneManager.json_path (ZoneMarker.zone_manager m))
                (Py.VList (map zone_value
                   (zs ++ [Zone (ZoneMarker.current_zone_id m)
                                (ZoneMarker.current_points m)]))))
             [] (ZoneMarker.current_zone_id m + 1) (ZoneMarker.drawing m)).
Proof.
  intros H. unfold ZoneMarker.commit.
  rewrite (add_zone_typed _ zs _ _ H). cbn [Py.bind zones_of_adds default].
  by rewrite map_int_inject.
Qed.

Lemma marker_extends_commit (zs0 : list zone) (id0 : Z) (m : ZoneMarker.t) :
  marker_extends zs0 id0 m ->
  (3 <= length (ZoneMarker.current_points m))%nat ->
  exists m',
    ZoneMarker.commit m = Py.Ok m'
    /\ marker_extends zs0 id0 m'
    /\ ZoneManager.json_path (ZoneMarker.zone_manager m')
       = ZoneManager.json_path (ZoneMarker.zone_manager m).
Proof.
  intros (new & Hz & Hall & Hids & Hid) Hlen.
  eexists. split; [exact (commit_typed m _ Hz)|]. split; [|done].
  exists (new ++ [Zone (ZoneMarker.current_zone_id m) (ZoneMarker.current_points m)]).
  cbn [ZoneMarker.zone_manager ZoneManager.zones ZoneMarker.current_zone_id].
  split; [by rewrite app_assoc|]. split; [|split].
  - apply Forall_app_2; [done|]. by repeat constructor.
  - rewrite map_app, length_app, Hids, Hid. cbn [map zone_id length].
    rewrite Nat2Z.inj_add. change (Z.of_nat 1) with 1.
    rewrite seqZ_app by lia. f_equal.
  - rewrite length_app, Hid. cbn [length]. lia.
Qed.

Lemma marker_extends_same (zs0 : list zone) (id0 : Z) (m m' : ZoneMarker.t) :
  ZoneMarker.zone_manager m' = ZoneMarker.zone_manager m ->
  ZoneMarker.current_zone_id m' = ZoneMarker.current_zone_id m ->
  marker_extends zs0 id0 m -> marker_extends zs0 id0 m'.
Proof. unfold marker_extends. by intros -> ->. Qed.

(** One event on a marker whose registry is typed: no exception, the
    registry only grows as [marker_extends] says, the path is kept, the
    file system changes on 's' only, and the loop goes on unless the
    event stops it. *)
Lemma step_typed (zs0 : list zone) (id0 : Z) (st : ZoneMarker.loop)
    (ev : gui_event) :
  marker_extends zs0 id0 (ZoneMarker.self st) ->
  exists st',
    ZoneMarker.step st ev = Py.Ok st'
    /\ marker_extends zs0 id0 (ZoneMarker.self st')
    /\ ZoneManager.json_path (ZoneMarker.zone_manager (ZoneMarker.self st'))
       = ZoneManager.json_path (ZoneMarker.zone_manager (ZoneMarker.self st))
    /\ (saves ev = false -> ZoneMarker.disk st' = ZoneMarker.disk st)
    /\ (stops ev = false -> ZoneMarker.running st' = ZoneMarker.running st)
    /\ (ZoneMarker.running st = false -> st' = st).
Proof.
  intros Hext. unfold ZoneMarker.step.
  destruct (ZoneMarker.running st) eqn:Hrun; [|by exists st].
  destruct ev as [event x y|waitKey ret].
  { eexists. split; [reflexivity|]. cbn [ZoneMarker.self ZoneMarker.disk
      ZoneMarker.running]. split; [|by destruct event].
    eapply marker_extends_same; [| |exact Hext]; by destruct event. }
  unfold ZoneMarker.on_key, saves, stops.
  set (k := Z.land waitKey 255).
  assert (forall (cont : ZoneMarker.t -> ZoneMarker.loop),
    exists m',
      Py.bind (if (3 <=? length (ZoneMarker.current_points (ZoneMarker.self st)))%nat
               then ZoneMarker.commit (ZoneMarker.self st)
               else Py.Ok (ZoneMarker.self st)) (fun m => Py.Ok (cont m))
      = Py.Ok (cont m')
      /\ marker_extends zs0 id0 m'
      /\ ZoneManager.json_path (ZoneMarker.zone_manager m')
         = ZoneManager.json_path (ZoneMarker.zone_manager (ZoneMarker.self st)))
    as Hcommit.
  { intros cont.
    destruct (Nat.leb_spec 3 (length (ZoneMarker.current_points (ZoneMarker.self st))))
      as [Hlen|Hlen].
    - destruct (marker_extends_commit zs0 id0 _ Hext Hlen) as (m' & -> & ? & ?).
      by exists m'.
    - by exists (ZoneMarker.self st). }
  destruct (k =? 113) eqn:E113; cbn [orb].
  { eexists. split; [reflexivity|]. cbn. by repeat split. }
  destruct (k =? 27) eqn:E27; cbn [orb].
  { eexists. split; [reflexivity|]. cbn. by repeat split. }
  destruct (k =? 115) eqn:E115.
  { destruct (Hcommit (fun m =>
      {| ZoneMarker.self := m;
         ZoneMarker.disk :=
           snd (ZoneManager.save_zones (ZoneMarker.disk st) (ZoneMarker.zone_manager m));
         ZoneMarker.frame_number := ZoneMarker.frame_number st;
         ZoneMarker.running := false |})) as (m' & -> & ? & ?).
    eexists. split; [reflexivity|]. cbn. by repeat split. }
  destruct (k =? 32) eqn:E32.
  { destruct (Hcommit (fun m =>
      {| ZoneMarker.self := m; ZoneMarker.disk := ZoneMarker.disk st;
         ZoneMarker.frame_number :=
           if ret then ZoneMarker.frame_number st + 1 else ZoneMarker.frame_number st;
         ZoneMarker.running := true |})) as (m' & -> & ? & ?).
    eexists. split; [reflexivity|]. cbn. by repeat split. }
  destruct (k =? 98) eqn:E98.
  { eexists. split; [reflexivity|]. cbn. by repeat split. }
  destruct (k =? 99) eqn:E99.
  { eexists. split; [reflexivity|]. cbn. split; [|by repeat split].
    eapply marker_extends_same; [| |exact Hext]; done. }
  destruct (k =? 13) eqn:E13.
  { destruct (Hcommit (fun m =>
      {| ZoneMarker.self := m; ZoneMarker.disk := ZoneMarker.disk st;
         ZoneMarker.frame_number := ZoneMarker.frame_number st;
         ZoneMarker.running := true |})) as (m' & -> & ? & ?).
    eexists. split; [reflexivity|]. cbn. by repeat split. }
  exists st. by repeat split.
Qed.

Lemma steps_typed (zs0 : list zone) (id0 : Z) (events : list gui_event)
    (st : ZoneMarker.loop) :
  marker_extends zs0 id0 (ZoneMarker.self st) ->
  exists st',
    ZoneMarker.steps st events = Py.Ok st'
    /\ marker_extends zs0 id0 (ZoneMarker.self st')
    /\ ZoneManager.json_path (ZoneMarker.zone_manager (ZoneMarker.self st'))
       = ZoneManager.json_path (ZoneMarker.zone_manager (ZoneMarker.self st))
    /\ (existsb saves events = false -> ZoneMarker.disk st' = ZoneMarker.disk st)
    /\ (existsb stops events = false ->
        ZoneMarker.running st' = ZoneMarker.running st)
    /\ (ZoneMarker.running st = false -> st' = st).
Proof.
  revert st. induction events as [|ev events IH]; intros st Hext.
  - by exists st.
  - destruct (step_typed zs0 id0 st ev Hext)
      as (st1 & E1 & Hext1 & Hpath1 & Hdisk1 & Hrun1 & Hoff1).
    destruct (IH st1 Hext1) as (st' & E' & Hext' & Hpath' & Hdisk' & Hrun' & Hoff').
    exists st'. cbn [ZoneMarker.steps existsb]. rewrite E1. cbn [Py.bind].
    split; [done|]. split; [done|]. split; [congruence|].
    split; [|split].
    + intros [? ?]%orb_false_iff. rewrite Hdisk', Hdisk1; done.
    + intros [? ?]%orb_false_iff. rewrite Hrun', Hrun1; done.
    + intros Hoff. rewrite Hoff' by (rewrite Hoff1; done). by apply Hoff1.
Qed.

Lemma marker_extends_start (zs0 : list zone) (m : ZoneMarker.t) :
  ZoneManager.zones (ZoneMarker.zone_manager m) = Py.VList (map zone_value zs0) ->
  marker_extends zs0 (ZoneMarker.current_zone_id m) m.
Proof.
  intros H. exists []. rewrite app_nil_r. split; [done|].
  split; [constructor|]. split; [done|]. cbn. lia.
Qed.



(** X21.  The marker writes to the file system on 's' only: after any
    sequence of events without that key (quitting with 'q' or ESC
    included) the file system is what it was, whatever zones were
    added in memory. *)
Theorem marker_writes_only_on_s (m : ZoneMarker.t) (fs : filesystem)
    (opened first_frame : bool) (events : list gui_event) (zs0 : list zone) :
  ZoneManager.zones (ZoneMarker.zone_manager m) = Py.VList (map zone_value zs0) ->
  Forall (fun z => zone_points z <> []) zs0 ->
  existsb saves events = false ->
  exists st,
    ZoneMarker.run m fs opened first_frame events = Py.Ok st
    /\ ZoneMarker.disk st = fs.
Proof.
  intros H _ Hs. unfold ZoneMarker.run.
  destruct (opened && first_frame); [|by eexists].
  destruct (steps_typed zs0 (ZoneMarker.current_zone_id m) events
              (ZoneMarker.Loop m fs 0 true) (marker_extends_start zs0 m H))
    as (st & E & _ & _ & Hdisk & _).
  exists st. split; [done|]. by apply Hdisk.
Qed.

Lemma marker_writes_only_on_s_witness :
  exists st,
    ZoneMarker.run
      (ZoneMarker.Make (ZoneManager.Make "zones.json" (Py.VList [])) [] 1 false)
      (FileSystem ∅ ∅ ∅) true true
      (clicks [(1, 1); (9, 1); (5, 8)] ++ [Key 13 true; Key 113 true])
    = Py.Ok st
    /\ ZoneMarker.disk st = FileSystem ∅ ∅ ∅.
Proof.
  refine (marker_writes_only_on_s
            (ZoneMarker.Make (ZoneManager.Make "zones.json" (Py.VList [])) [] 1 false)
            (FileSystem ∅ ∅ ∅) true true _ [] _ (List.Forall_nil _) _); reflexivity.
Defined.

Lemma steps_app (st : ZoneMarker.loop) (events1 events2 : list gui_event) :
  ZoneMarker.steps st (events1 ++ events2)
  = Py.bind (ZoneMarker.steps st events1)
            (fun st' => ZoneMarker.steps st' events2).
Proof.
  revert st. induction events1 as [|ev events1 IH]; intros st; [done|].
  cbn [app ZoneMarker.steps]. destruct (ZoneMarker.step st ev); [|done].
  cbn [Py.bind]. apply IH.
Qed.

Lemma steps_stopped (st : ZoneMarker.loop) (events : list gui_event) :
  ZoneMarker.running st = false -> ZoneMarker.steps st events = Py.Ok st.
Proof.
  intros H. induction events as [|ev events IH]; [done|].
  cbn [ZoneMarker.steps]. unfold ZoneMarker.step. by rewrite H.
Qed.

Lemma stops_saves (events : list gui_event) :
  existsb stops events = false -> existsb saves events = false.
Proof.
  induction events as [|ev events IH]; [done|]. cbn [existsb].
  intros [Hev Hrest]%orb_false_iff. rewrite (IH Hrest), orb_false_r.
  destruct ev as [|k r]; [done|]. cbn in *.
  by apply orb_false_iff in Hev as [_ ?].
Qed.

(** X22.  Pressing 's' ends the marker's loop and saves: the polygon
    being drawn is added first when it has at least three points and is
    left out of the registry when it has fewer; the registry is then
    written to the marker's path (so that, when the path is writable,
    loading it gives that registry back), and the events that follow
    are not handled any more. *)
Theorem marker_s_saves_and_stops (m : ZoneMarker.t) (fs : filesystem)
    (events later : list gui_event) (waitKey : Z) (ret : bool) (zs0 : list zone) :
  ZoneManager.zones (ZoneMarker.zone_manager m) = Py.VList (map zone_value zs0) ->
  Forall (fun z => zone_points z <> []) zs0 ->
  existsb stops events = false ->
  Z.land waitKey 255 = 115 ->
  exists st1 st zs1,
    ZoneMarker.steps (ZoneMarker.Loop m fs 0 true) events = Py.Ok st1
    /\ ZoneMarker.run m fs true true (events ++ Key waitKey ret :: later) = Py.Ok st
    /\ ZoneMarker.running st = false
    /\ ZoneManager.zones (ZoneMarker.zone_manager (ZoneMarker.self st1))
       = Py.VList (map zone_value zs1)
    /\ ZoneManager.zones (ZoneMarker.zone_manager (ZoneMarker.self st))
       = Py.VList (map zone_value
           (zs1 ++ if (3 <=? length (ZoneMarker.current_points (ZoneMarker.self st1)))%nat
                   then [Zone (ZoneMarker.current_zone_id (ZoneMarker.self st1))
                              (ZoneMarker.current_points (ZoneMarker.self st1))]
                   else []))
    /\ ZoneMarker.disk st
       = snd (ZoneManager.save_zones fs (ZoneMarker.zone_manager (ZoneMarker.self st)))
    /\ (ZoneManager.json_path (ZoneMarker.zone_manager m) ∉ denied fs ->
        ZoneManager.__init__ (ZoneMarker.disk st)
          (ZoneManager.json_path (ZoneMarker.zone_manager m))
        = Py.Ok (ZoneMarker.zone_manager (ZoneMarker.self st))).
Proof.
  intros H _ Hstops Hkey.
  destruct (steps_typed zs0 (ZoneMarker.current_zone_id m) events
              (ZoneMarker.Loop m fs 0 true) (marker_extends_start zs0 m H))
    as (st1 & E1 & (new & Hz1 & _) & Hpath1 & Hdisk1 & Hrun1 & _).
  specialize (Hdisk1 (stops_saves _ Hstops)). specialize (Hrun1 Hstops).
  cbn [ZoneMarker.disk ZoneMarker.running ZoneMarker.self] in Hdisk1, Hrun1, Hpath1.
  assert (exists m',
    (if (3 <=? length (ZoneMarker.current_points (ZoneMarker.self st1)))%nat
     then ZoneMarker.commit (ZoneMarker.self st1)
     else Py.Ok (ZoneMarker.self st1)) = Py.Ok m'
    /\ ZoneManager.json_path (ZoneMarker.zone_manager m')
       = ZoneManager.json_path (ZoneMarker.zone_manager m)
    /\ ZoneManager.zones (ZoneMarker.zone_manager m')
       = Py.VList (map zone_value
           ((zs0 ++ new)
            ++ if (3 <=? length (ZoneMarker.current_points (ZoneMarker.self st1)))%nat
               then [Zone (ZoneMarker.current_zone_id (ZoneMarker.self st1))
                          (ZoneMarker.current_points (ZoneMarker.self st1))]
               else [])))
    as (m' & Em' & Hpath' & Hz').
  { destruct (3 <=? length (ZoneMarker.current_points (ZoneMarker.self st1)))%nat.
    - eexists. split; [exact (commit_typed _ _ Hz1)|]. by split.
    - exists (ZoneMarker.self st1). rewrite app_nil_r. by split. }
  exists st1,
    (ZoneMarker.Loop m'
       (snd (ZoneManager.save_zones fs (ZoneMarker.zone_manager m')))
       (ZoneMarker.frame_number st1) false),
    (zs0 ++ new).
  split; [done|]. split; [|split; [done|split; [done|split; [done|split; [done|]]]]].
  - unfold ZoneMarker.run. cbn [andb]. rewrite steps_app, E1. cbn [Py.bind].
    cbn [ZoneMarker.steps]. unfold ZoneMarker.step at 1. rewrite Hrun1.
    unfold ZoneMarker.on_key. rewrite Hkey. cbn [Z.eqb Pos.eqb orb].
    rewrite Em'. cbn [Py.bind]. rewrite Hdisk1. by apply steps_stopped.
  - intros Hw. cbn [ZoneMarker.disk ZoneMarker.self].
    rewrite <- Hpath'. apply (save_then_load fs).
    rewrite save_zones_allowed by (by rewrite Hpath'). reflexivity.
Qed.

(** A triangle confirmed with Enter and then two more points, followed
    by 's' and a further key. *)
Lemma marker_s_saves_and_stops_witness :
  let m := ZoneMarker.Make (ZoneManager.Make "zones.json" (Py.VList [])) [] 1 false in
  let fs := FileSystem ∅ ∅ ∅ in
  let events :=
    clicks [(1, 1); (9, 1); (5, 8)] ++ [Key 13 true] ++ clicks [(2, 2); (3, 3)] in
  exists st1 st zs1,
    ZoneMarker.steps (ZoneMarker.Loop m fs 0 true) events = Py.Ok st1
    /\ ZoneMarker.run m fs true true (events ++ Key 115 true :: [Key 13 true])
       = Py.Ok st
    /\ ZoneMarker.running st = false
    /\ ZoneManager.zones (ZoneMarker.zone_manager (ZoneMarker.self st1))
       = Py.VList (map zone_value zs1)
    /\ ZoneManager.zones (ZoneMarker.zone_manager (ZoneMarker.self st))
       = Py.VList (map zone_value
           (zs1 ++ if (3 <=? length (ZoneMarker.current_points (ZoneMarker.self st1)))%nat
                   then [Zone (ZoneMarker.current_zone_id (ZoneMarker.self st1))
                              (ZoneMarker.current_points (ZoneMarker.self st1))]
                   else []))
    /\ ZoneMarker.disk st
       = snd (ZoneManager.save_zones fs (ZoneMarker.zone_manager (ZoneMarker.self st)))
    /\ (ZoneManager.json_path (ZoneMarker.zone_manager m) ∉ denied fs ->
        ZoneManager.__init__ (ZoneMarker.disk st)
          (ZoneManager.json_path (ZoneMarker.zone_manager m))
        = Py.Ok (ZoneMarker.zone_manager (ZoneMarker.self st))).
Proof.
  cbv zeta.
  refine (marker_s_saves_and_stops _ _ _ _ 115 true [] _ (List.Forall_nil _) _ _);
    reflexivity.
Defined.

Lemma steps_clicks (zm : ZoneManager.t) (cp pts : list point) (id : Z)
    (d : bool) (fs : filesystem) (n : Z) :
  ZoneMarker.steps (ZoneMarker.Loop (ZoneMarker.Make zm cp id d) fs n true)
                   (clicks pts)
  = Py.Ok (ZoneMarker.Loop
             (ZoneMarker.Make zm (cp ++ pts) id
                (match pts with [] => d | _ :: _ => false end))
             fs n true).
Proof.
  revert cp d. induction pts as [|[x y] pts IH]; intros cp d.
  - cbn. by rewrite app_nil_r.
  - cbn [clicks flat_map app ZoneMarker.steps ZoneMarker.step ZoneMarker.running
         Py.bind ZoneMarker.mouse_callback ZoneMarker.self ZoneMarker.disk
         ZoneMarker.frame_number ZoneMarker.zone_manager ZoneMarker.current_points
         ZoneMarker.current_zone_id ZoneMarker.drawing].
    fold (clicks pts). rewrite IH, <- app_assoc. cbn [app].
    by destruct pts.
Qed.

(** X23.  Drawing a zone: after clicking the points of a polygon, Enter
    adds it to the registry, with exactly the clicked points in the
    order of the clicks and the current id, when there are at least
    three points; with fewer points Enter adds nothing and the points
    stay pending.  Nothing is written to the file system. *)
Theorem marker_enter_commits_clicked_polygon (zm : ZoneManager.t)
    (zs : list zone) (id : Z) (fs : filesystem) (pts : list point)
    (waitKey : Z) (ret : bool) :
  ZoneManager.zones zm = Py.VList (map zone_value zs) ->
  Forall (fun z => zone_points z <> []) zs ->
  Z.land waitKey 255 = 13 ->
  ZoneMarker.run (ZoneMarker.Make zm [] id false) fs true true
    (clicks pts ++ [Key waitKey ret])
  = Py.Ok (ZoneMarker.Loop
             (if (3 <=? length pts)%nat
              then ZoneMarker.Make
                     (ZoneManager.Make (ZoneManager.json_path zm)
                        (Py.VList (map zone_value (zs ++ [Zone id pts]))))
                     [] (id + 1) false
              else ZoneMarker.Make zm pts id false)
             fs 0 true).
Proof.
  intros Hz _ Hkey. unfold ZoneMarker.run. cbn [andb].
  rewrite steps_app, steps_clicks. cbn [Py.bind app ZoneMarker.steps].
  unfold ZoneMarker.step. cbn [ZoneMarker.running].
  unfold ZoneMarker.on_key. rewrite Hkey. cbn [Z.eqb Pos.eqb orb].
  cbn [ZoneMarker.self ZoneMarker.current_points ZoneMarker.disk
       ZoneMarker.frame_number].
  assert ((match pts with [] => false | _ :: _ => false end) = false) as ->
    by (by destruct pts).
  destruct (3 <=? length pts)%nat; [|done].
  by rewrite (commit_typed (ZoneMarker.Make zm pts id false) zs Hz).
Qed.

Lemma marker_enter_commits_clicked_polygon_witness :
  ZoneMarker.run
    (ZoneMarker.Make (ZoneManager.Make "zones.json" (Py.VList [])) [] 1 false)
    (FileSystem ∅ ∅ ∅) true true
    (clicks [(1, 1); (9, 1); (5, 8)] ++ [Key 13 false])
  = Py.Ok (ZoneMarker.Loop
             (ZoneMarker.Make
                (ZoneManager.Make "zones.json"
                   (Py.VList (map zone_value ([] ++ [Zone 1 [(1, 1); (9, 1); (5, 8)]]))))
                [] (1 + 1) false)
             (FileSystem ∅ ∅ ∅) 0 true).
Proof.
  exact (marker_enter_commits_clicked_polygon
           (ZoneManager.Make "zones.json" (Py.VList [])) [] 1 (FileSystem ∅ ∅ ∅)
           [(1, 1); (9, 1); (5, 8)] 13 false eq_refl (List.Forall_nil _) eq_refl).
Defined.

(** X24.  A new marker starts with no pending points and with the next
    id set to the number of zones plus one: 1 when the zone file is
    missing, cannot be opened or is not JSON, n + 1 when the file holds
    a list of n zones.  When the value under ["zones"] has no length (a
    number, for one), creating the marker raises [TypeError]. *)
Theorem marker_init_next_id_is_count_plus_one (fs : filesystem) (path : string) :
  (files fs !! path = None \/ files fs !! path = Some NoAccess
   \/ files fs !! path = Some NotJson ->
   ZoneMarker.__init__ fs path
   = Py.Ok (ZoneMarker.Make (ZoneManager.Make path (Py.VList [])) [] 1 false))
  /\ (forall d l,
        files fs !! path = Some (Json (Py.VDict d)) ->
        d !! "zones" = Some (Py.VList l) ->
        ZoneMarker.__init__ fs path
        = Py.Ok (ZoneMarker.Make (ZoneManager.Make path (Py.VList l)) []
                   (Z.of_nat (length l) + 1) false))
  /\ (forall d n,
        files fs !! path = Some (Json (Py.VDict d)) ->
        d !! "zones" = Some (Py.VInt n) ->
        ZoneMarker.__init__ fs path = Py.Raise Py.TypeError).
Proof.
  unfold ZoneMarker.__init__. split; [|split].
  - intros H. by rewrite (init_silent_degrade fs path H).
  - intros d l Hf Hd. by rewrite (init_existing _ _ _ Hf), Hd.
  - intros d n Hf Hd. by rewrite (init_existing _ _ _ Hf), Hd.
Qed.
